(** * Two Ansible adapters: [datadog_monitor] and [proxmox]

    A shallow embedding of [monitoring/datadog_monitor.py] and
    [cloud/misc/proxmox.py].  Each module is a Python script whose [main]
    ends in [module.exit_json] or [module.fail_json] (both raise
    [SystemExit], which [except Exception] does not catch).  The remote
    services are described by records of what they answer; every request
    the script sends is recorded in a trace, so that "no call was made"
    is a statement about that trace. *)

From Stdlib Require Import ZArith String List Bool Arith Lia.
Import ListNotations.
Local Open Scope string_scope.

(** ** Python values shared by both adapters *)

(** A parameter that is [None] or a string. *)
Definition pystr := option string.

(** Python truthiness of such a parameter: [None] and [''] are falsy. *)
Definition truthy (v : pystr) : bool :=
  match v with
  | None => false
  | Some s => negb (s =? EmptyString)
  end.

(** [a and b]: the first operand when it is falsy, the second otherwise. *)
Definition py_and (a b : pystr) : pystr := if truthy a then b else a.

(** Truthiness of a two-element tuple [(a, b)]: a tuple is falsy only when
    it is empty, so the components are not looked at. *)
Definition tuple2_truthy {A B : Type} (_ : A * B) : bool := true.

(** Truthiness of a list: non-empty. *)
Definition nonempty {A : Type} (l : list A) : bool :=
  match l with
  | [] => false
  | _ :: _ => true
  end.

(** [x == y] between a string taken from a response and a parameter that
    may be [None]. *)
Definition eq_pystr (s : string) (v : pystr) : bool :=
  match v with
  | None => false
  | Some s' => s =? s'
  end.

(* ====================================================================== *)
(** * monitoring/datadog_monitor.py *)
(* ====================================================================== *)

Module Datadog.

(** Values of the optional parameters, as they are put in the JSON body. *)
Inductive value : Type :=
| VStr (s : string)
| VBool (b : bool)
| VNum (n : Z)
| VDict (kv : list (string * Z)).

(** [module.params], after [AnsibleModule] applied the defaults of
    [argument_spec]; [None] is Python's [None]. *)
Record params : Type := {
  api_key : string;
  app_key : string;
  type_ : string;
  query : string;
  name : string;
  message : option value;
  silenced : option value;
  notify_no_data : option value;
  no_data_timeframe : option value;
  timeout_h : option value;
  renotify_interval : option value;
  escalation_message : option value;
  notify_audit : option value;
  thresholds : option value
}.

Definition OPTIONS : list string :=
  ["silenced"; "notify_no_data"; "no_data_timeframe"; "timeout_h";
   "renotify_interval"; "escalation_message"; "notify_audit"; "thresholds"].

(** [module.params[param]] for the keys of [OPTIONS]. *)
Definition param (p : params) (key : string) : option value :=
  if key =? "silenced" then silenced p
  else if key =? "notify_no_data" then notify_no_data p
  else if key =? "no_data_timeframe" then no_data_timeframe p
  else if key =? "timeout_h" then timeout_h p
  else if key =? "renotify_interval" then renotify_interval p
  else if key =? "escalation_message" then escalation_message p
  else if key =? "notify_audit" then notify_audit p
  else if key =? "thresholds" then thresholds p
  else None.

(** A JSON object, as the association list of its members. *)
Definition dict := list (string * value).

(** A monitor as the listing returns it. *)
Record monitor : Type := {
  mon_name : string;
  mon_type : string;
  mon_query : string;
  mon_options : dict
}.

(** What the service answers: to the listing GET a status and, parsed,
    the monitors of the body; to the registration POST a status and the
    ['id'] member of the JSON body ([None] for null). *)
Record api : Type := {
  list_status : Z;
  list_monitors : list monitor;
  post_status : dict -> Z;
  post_id : dict -> option Z
}.

(** The HTTP requests [fetch_url] sends. *)
Inductive request : Type :=
| GET (uri : string)
| POST (uri : string) (data : dict).

Inductive fail_msg : Type :=
| MsgThresholds          (* "thresholds may not be set for metric monitors" *)
| MsgResponse            (* msg=response *)
| MsgInfo (status : Z).  (* **info *)

Inductive outcome : Type :=
| ExitJson (changed : bool)
| FailJson (msg : fail_msg).

Definition monitor_uri (p : params) : string :=
  "https://app.datadoghq.com/api/v1/monitor?api_key=" ++ api_key p
  ++ "&application_key=" ++ app_key p.

(** [installed(module)]: the flag and the requests sent. *)
Definition installed (a : api) (p : params) : bool * list request :=
  let uri := monitor_uri p in
  let sent := [GET uri] in
  if (list_status a =? 200)%Z then
    let installed :=
      fold_left
        (fun installed monitor =>
           if mon_name monitor =? name p then true else installed)
        (list_monitors a) false in
    (installed, sent)
  else
    (false, sent).

(** [post_monitor(module)]: the outcome and the requests sent. *)
Definition post_monitor (a : api) (p : params) : outcome * list request :=
  let uri := monitor_uri p in
  let body : dict :=
    [("type", VStr (type_ p)); ("query", VStr (query p));
     ("name", VStr (name p))] in
  if (type_ p =? "metric alert")
     && match thresholds p with Some _ => true | None => false end
  then (FailJson MsgThresholds, [])
  else
    let '(is_installed, sent) := installed a p in
    if is_installed then (ExitJson false, sent)
    else
      let body :=
        fold_left
          (fun body key =>
             match param p key with
             | Some v => (body ++ [(key, v)])%list
             | None => body
             end)
          OPTIONS body in
      let sent := (sent ++ [POST uri body])%list in
      if (post_status a body =? 200)%Z then
        match post_id a body with
        | Some _ => (ExitJson true, sent)
        | None => (FailJson MsgResponse, sent)
        end
      else (FailJson (MsgInfo (post_status a body)), sent).

Definition main (a : api) (p : params) : outcome * list request :=
  post_monitor a p.

(** Whether a request changes remote state. *)
Definition mutating (r : request) : bool :=
  match r with
  | GET _ => false
  | POST _ _ => true
  end.

(** A monitor with the declared name exists remotely. *)
Definition listed (a : api) (p : params) : bool :=
  existsb (fun monitor => mon_name monitor =? name p) (list_monitors a).

End Datadog.

(* ====================================================================== *)
(** * cloud/misc/proxmox.py *)
(* ====================================================================== *)

Module Proxmox.

(** ** Data *)

(** The [choices] of the [state] parameter. *)
Inductive desired_state : Type :=
| present | started | absent | stopped | restarted.

(** [module.params]; [vmid] is kept as the number [int(vmid)] reads. *)
Record params : Type := {
  state : desired_state;
  api_user : string;
  api_host : string;
  api_password : pystr;
  vmid : Z;
  https_verify_ssl : bool;
  node : pystr;
  password : pystr;
  hostname : pystr;
  ostemplate : pystr;
  disk : Z;
  cpus : Z;
  memory : Z;
  swap : Z;
  netif : pystr;
  ip_address : pystr;
  onboot : bool;
  storage : string;
  cpuunits : Z;
  nameserver : pystr;
  searchdomain : pystr;
  timeout : Z;
  force : bool
}.

(** An entry of [cluster.resources.get(type='vm')]. *)
Record vm : Type := {
  vm_id : Z;         (* vm['vmid'] *)
  vm_node : string   (* vm['node'] *)
}.

(** The answer of [tasks(taskid).status.get()]; a task that is not
    ['stopped'] has no meaningful [exitstatus], and the script does not
    read it then. *)
Record task_state : Type := {
  status : string;
  exitstatus : string
}.

Definition taskid := string.

(** The keyword arguments of [openvz.create]. *)
Record create_args : Type := {
  c_vmid : Z;
  c_storage : string;
  c_memory : Z;
  c_swap : Z;
  c_cpus : Z;
  c_disk : Z;
  c_password : pystr;
  c_hostname : pystr;
  c_ostemplate : pystr;
  c_netif : pystr;
  c_ip_address : pystr;
  c_onboot : Z;
  c_cpuunits : Z;
  c_nameserver : pystr;
  c_searchdomain : pystr;
  c_force : Z
}.

(** The requests sent to the cluster. *)
Inductive call : Type :=
| AccessTicket (user : string)                        (* ProxmoxAPI(...) *)
| ResourcesGet                                        (* cluster.resources.get(type='vm') *)
| NodesGet                                            (* nodes.get() *)
| ContentGet (node : pystr) (storage : string)        (* nodes(node).storage(storage).content.get() *)
| CurrentGet (node : string) (vmid : Z)               (* nodes(n).openvz(vmid).status.current.get() *)
| CreatePost (node : pystr) (args : create_args)      (* nodes(node).openvz.create(...) *)
| StartPost (node : string) (vmid : Z)                (* ...status.start.post() *)
| ShutdownPost (node : string) (vmid : Z) (forceStop : bool)  (* ...status.shutdown.post(...) *)
| UmountPost (node : string) (vmid : Z)               (* ...status.umount.post() *)
| DeleteVM (node : string) (vmid : Z)                 (* nodes(n).openvz.delete(vmid) *)
| TaskStatusGet (node : pystr) (task : taskid)        (* nodes(n).tasks(taskid).status.get() *)
| TaskLogGet (node : pystr) (task : taskid).          (* nodes(n).tasks(taskid).log.get() *)

(** What the cluster answers.  Listings and the status of a container are
    taken as they are when the invocation starts; a task is observed
    through time: [task_status c id s] is what a status query answers [s]
    seconds after the invocation started.  Every request is answered. *)
Record cluster : Type := {
  login : string -> pystr -> bool;
  resources : list vm;
  nodes : list string;
  content : pystr -> string -> list string;   (* the 'volid' of each entry *)
  current : string -> Z -> string;            (* ['status'] of status.current *)
  create_task : pystr -> create_args -> taskid;
  start_task : string -> Z -> taskid;
  shutdown_task : string -> Z -> bool -> taskid;
  umount_task : string -> Z -> taskid;
  delete_task : string -> Z -> taskid;
  task_status : taskid -> nat -> task_state;
  task_log : taskid -> list string
}.

(** The machine the module runs on. *)
Record host : Type := {
  HAS_PROXMOXER : bool;
  PROXMOX_PASSWORD : option string    (* os.environ['PROXMOX_PASSWORD'] *)
}.

(** Python exceptions the script can meet. *)
Inductive exn : Type :=
| NameError (name : string)   (* global name '...' is not defined *)
| IndexError                  (* list index out of range *)
| LoginError.                 (* raised by ProxmoxAPI(...) *)

(** The messages, by format string and arguments. *)
Inductive message : Type :=
| MsgProxmoxerRequired       (* 'proxmoxer required for this module' *)
| MsgPasswordRequired        (* 'You should set api_password param or use PROXMOX_PASSWORD environment variable' *)
| MsgAuthorizationFailed (e : exn)
                             (* 'authorization on proxmox cluster failed with exception: %s' *)
| MsgAlreadyExists (vmid : Z)
                             (* "VM with vmid = %s is already exists" *)
| MsgMandatory               (* 'node, hostname, password and ostemplate are mandatory for creating vm' *)
| MsgNodeNotExists (node : pystr)
                             (* "node '%s' not exists in cluster" *)
| MsgTemplateNotExists (ostemplate node : pystr) (storage : string)
                             (* "ostemplate '%s' not exists on node %s and storage %s" *)
| MsgDeployed (vmid : Z) (ostemplate : pystr)
                             (* "deployed VM %s from template %s" *)
| MsgFailedWithException (what : string) (vmid : Z) (e : exn)
                             (* "<what> of VM %s failed with exception: %s" *)
| MsgNotInCluster (vmid : Z) (* 'VM with vmid = %s not exists in cluster' *)
| MsgAlreadyRunning (vmid : Z)
                             (* "VM %s is already running" *)
| MsgStarted (vmid : Z)      (* "VM %s started" *)
| MsgShuttingDown (vmid : Z) (* "VM %s is shutting down" *)
| MsgShutdownButMounted (vmid : Z)
                             (* "VM %s is already shutdown, but mounted. You can use force option to umount it." *)
| MsgAlreadyShutdown (vmid : Z)
                             (* "VM %s is already shutdown" *)
| MsgNotRunning (vmid : Z)   (* "VM %s is not running" *)
| MsgRestarted (vmid : Z)    (* "VM %s is restarted" *)
| MsgNotExist (vmid : Z)     (* "VM %s does not exist" *)
| MsgRunningStopFirst (vmid : Z)
                             (* "VM %s is running. Stop it before deletion." *)
| MsgMountedForceStopFirst (vmid : Z)
                             (* "VM %s is mounted. Stop it with force option before deletion." *)
| MsgRemoved (vmid : Z)      (* "VM %s removed" *)
| MsgReachedTimeout (what : string) (excerpt : list string).
                             (* 'Reached timeout while waiting for <what> VM. Last line in task before timeout: %s' % log[:1] *)

(** What an invocation reports. *)
Inductive outcome : Type :=
| ExitJson (changed : bool) (msg : message)
| FailJson (msg : message).

(** ** The monad of the script

    A computation runs in a world (the clock, in seconds slept, and the
    requests sent so far, each stamped with the clock) and ends in one of
    four ways: it returns a value, it leaves the process through
    [exit_json] or [fail_json], it raises an exception, or the fuel of a
    loop is spent ([Spin]: the Python loop is still running). *)

Record world : Type := {
  now : nat;
  trace : list (nat * call)
}.

Definition boot : world := {| now := 0; trace := [] |}.

Inductive res (A : Type) : Type :=
| Ret (a : A)
| Exit (o : outcome)
| Raise (e : exn)
| Spin.

Arguments Ret {A} a.
Arguments Exit {A} o.
Arguments Raise {A} e.
Arguments Spin {A}.

Definition M (A : Type) : Type := world -> res A * world.

Definition ret {A : Type} (a : A) : M A := fun w => (Ret a, w).

Definition bind {A B : Type} (m : M A) (f : A -> M B) : M B :=
  fun w =>
    match m w with
    | (Ret a, w') => f a w'
    | (Exit o, w') => (Exit o, w')
    | (Raise e, w') => (Raise e, w')
    | (Spin, w') => (Spin, w')
    end.

Notation "x <- m ;; k" := (bind m (fun x => k))
  (at level 61, m at next level, right associativity).
Notation "m ;; k" := (bind m (fun _ => k))
  (at level 61, right associativity).

(** [module.exit_json(changed=..., msg=...)] and [module.fail_json(msg=...)]. *)
Definition exit_json {A : Type} (changed : bool) (msg : message) : M A :=
  fun w => (Exit (ExitJson changed msg), w).

Definition fail_json {A : Type} (msg : message) : M A :=
  fun w => (Exit (FailJson msg), w).

Definition raise {A : Type} (e : exn) : M A := fun w => (Raise e, w).

Definition spin {A : Type} : M A := fun w => (Spin, w).

(** [try: m except Exception, e: h e]; [SystemExit] passes through. *)
Definition try_except {A : Type} (m : M A) (h : exn -> M A) : M A :=
  fun w =>
    match m w with
    | (Raise e, w') => h e w'
    | r => r
    end.

(** Sending a request: it is appended to the trace with the clock. *)
Definition send (q : call) : M unit :=
  fun w => (Ret tt, {| now := now w; trace := trace w ++ [(now w, q)] |}).

(** [time.sleep(n)]. *)
Definition sleep (n : nat) : M unit :=
  fun w => (Ret tt, {| now := now w + n; trace := trace w |}).

Definition clock : M nat := fun w => (Ret (now w), w).

(** ** Remote operations *)

(** [tasks(taskid).status.get()], answered for the current second. *)
Definition task_status_get (c : cluster) (node : pystr) (task : taskid)
  : M task_state :=
  send (TaskStatusGet node task);;
  t <- clock;;
  ret (task_status c task t).

(** [tasks(taskid).log.get()]. *)
Definition task_log_get (c : cluster) (node : pystr) (task : taskid)
  : M (list string) :=
  send (TaskLogGet node task);;
  ret (task_log c task).

(** [vm[0]['node']]. *)
Definition vm0_node (vm : list vm) : M string :=
  match vm with
  | v :: _ => ret (vm_node v)
  | [] => raise IndexError
  end.

(** [nodes(vm[0]['node']).openvz(vmid).status.current.get()['status']]. *)
Definition current_status (c : cluster) (vm : list vm) (vmid : Z) : M string :=
  n <- vm0_node vm;;
  send (CurrentGet n vmid);;
  ret (current c n vmid).

(** [ProxmoxAPI(api_host, user=..., password=..., verify_ssl=...)]. *)
Definition ProxmoxAPI (c : cluster) (user : string) (password : pystr)
  : M unit :=
  send (AccessTicket user);;
  if login c user password then ret tt else raise LoginError.

(** ** The functions of the script *)

Definition get_instance (c : cluster) (vmid : Z) : M (list vm) :=
  send ResourcesGet;;
  ret (filter (fun vm => (vm_id vm =? vmid)%Z) (resources c)).

Definition content_check (c : cluster) (node ostemplate : pystr)
           (storage : string) : M (list bool) :=
  send (ContentGet node storage);;
  ret (map (fun _ => true)
           (filter (fun volid => eq_pystr volid ostemplate)
                   (content c node storage))).

Definition node_check (c : cluster) (node : pystr) : M (list bool) :=
  send NodesGet;;
  ret (map (fun _ => true) (filter (fun nd => eq_pystr nd node) (nodes c))).

(** How one pass of a [while timeout:] loop ends: with a [return], or at
    the bottom of the body with the new value of [timeout]. *)
Inductive loop_ctl (A : Type) : Type :=
| Return (a : A)
| Again (timeout : Z).

Arguments Return {A} a.
Arguments Again {A} timeout.

(** [while timeout: body].  [None] when the loop is left because
    [timeout] is 0, [Some a] when the body returned [a]. *)
Fixpoint while_timeout {A : Type} (fuel : nat) (timeout : Z)
         (body : Z -> M (loop_ctl A)) : M (option A) :=
  if (timeout =? 0)%Z then ret None
  else
    match fuel with
    | O => spin
    | S fuel' =>
        ctl <- body timeout;;
        match ctl with
        | Return a => ret (Some a)
        | Again timeout' => while_timeout fuel' timeout' body
        end
    end.

(** The body the five polling loops share:
<<
    if ( tasks(taskid).status.get()['status'] == 'stopped'
        and tasks(taskid).status.get()['exitstatus'] == 'OK' ):
      <finished>
    timeout = timeout - 1
    if timeout == 0:
      <expired>
    time.sleep(1)
>> *)
Definition poll {A : Type} (c : cluster) (node : pystr) (task : taskid)
           (finished : M (loop_ctl A)) (expired : M unit) (timeout : Z)
  : M (loop_ctl A) :=
  s <- task_status_get c node task;;
  ok <- (if status s =? "stopped"
         then s' <- task_status_get c node task;;
              ret (exitstatus s' =? "OK")
         else ret false);;
  if ok then finished
  else
    let timeout := (timeout - 1)%Z in
    (if (timeout =? 0)%Z then expired else ret tt);;
    sleep 1;;
    ret (Again timeout).

(** [module.fail_json(msg='Reached timeout while waiting for <what> VM.
    Last line in task before timeout: %s' % node.tasks(taskid).log.get()[:1])] *)
Definition reached_timeout (c : cluster) (what : string) (node : pystr)
           (task : taskid) : M unit :=
  log <- task_log_get c node task;;
  fail_json (MsgReachedTimeout what (firstn 1 log)).

(** The same statement where [proxmox_node] is not bound (in
    [stop_instance], [umount_instance] and [main]): evaluating the
    argument raises before anything is sent. *)
Definition reached_timeout_unbound : M unit :=
  raise (NameError "proxmox_node").

Definition create_instance (fuel : nat) (c : cluster) (vmid : Z)
           (node : pystr) (disk : Z) (storage : string)
           (cpus memory swap timeout : Z)
           (password hostname ostemplate netif ip_address : pystr)
           (onboot cpuunits : Z) (nameserver searchdomain : pystr)
           (force : Z) : M (option bool) :=
  let proxmox_node := node in
  let args :=
    {| c_vmid := vmid; c_storage := storage; c_memory := memory;
       c_swap := swap; c_cpus := cpus; c_disk := disk;
       c_password := password; c_hostname := hostname;
       c_ostemplate := ostemplate; c_netif := netif;
       c_ip_address := ip_address; c_onboot := onboot;
       c_cpuunits := cpuunits; c_nameserver := nameserver;
       c_searchdomain := searchdomain; c_force := force |} in
  send (CreatePost proxmox_node args);;
  let taskid := create_task c proxmox_node args in
  while_timeout fuel timeout
    (poll c proxmox_node taskid (ret (Return true))
          (reached_timeout c "creating" proxmox_node taskid)).

Definition start_instance (fuel : nat) (c : cluster) (vm : list vm)
           (vmid timeout : Z) : M bool :=
  n <- vm0_node vm;;
  send (StartPost n vmid);;
  let taskid := start_task c n vmid in
  r <- while_timeout fuel timeout
         (poll c (Some n) taskid (ret (Return true))
               (reached_timeout c "starting" (Some n) taskid));;
  match r with
  | Some b => ret b
  | None => ret false
  end.

Definition stop_instance (fuel : nat) (c : cluster) (vm : list vm)
           (vmid timeout : Z) (force : bool) : M bool :=
  n <- vm0_node vm;;
  send (ShutdownPost n vmid force);;
  let taskid := shutdown_task c n vmid force in
  r <- while_timeout fuel timeout
         (poll c (Some n) taskid (ret (Return true))
               reached_timeout_unbound);;
  match r with
  | Some b => ret b
  | None => ret false
  end.

Definition umount_instance (fuel : nat) (c : cluster) (vm : list vm)
           (vmid timeout : Z) : M bool :=
  n <- vm0_node vm;;
  send (UmountPost n vmid);;
  let taskid := umount_task c n vmid in
  r <- while_timeout fuel timeout
         (poll c (Some n) taskid (ret (Return true))
               reached_timeout_unbound);;
  match r with
  | Some b => ret b
  | None => ret false
  end.

(** The five [try] blocks of [main()], one per value of [state].
    Returning [tt] means that the block was left at its end, without
    [exit_json] or [fail_json]. *)

(** [if state == 'present':] *)
Definition state_present (fuel : nat) (c : cluster) (p : params) : M unit :=
  let vmid := vmid p in
  let node := node p in
  let storage := storage p in
  try_except
    (vm <- get_instance c vmid;;
     (if nonempty vm && negb (force p) then
        exit_json false (MsgAlreadyExists vmid)
      else if negb (tuple2_truthy
                      (node, py_and (py_and (hostname p) (password p))
                                    (ostemplate p))) then
        fail_json MsgMandatory
      else
        nd <- node_check c node;;
        if negb (nonempty nd) then fail_json (MsgNodeNotExists node)
        else
          ct <- content_check c node (ostemplate p) storage;;
          if negb (nonempty ct) then
            fail_json (MsgTemplateNotExists (ostemplate p) node storage)
          else ret tt);;
     create_instance fuel c vmid node (disk p) storage (cpus p) (memory p)
                     (swap p) (timeout p)
                     (password p) (hostname p) (ostemplate p) (netif p)
                     (ip_address p) (Z.b2z (onboot p)) (cpuunits p)
                     (nameserver p) (searchdomain p) (Z.b2z (force p));;
     exit_json true (MsgDeployed vmid (ostemplate p)))
    (fun e => fail_json (MsgFailedWithException "creation" vmid e)).

(** [elif state == 'started':] *)
Definition state_started (fuel : nat) (c : cluster) (p : params) : M unit :=
  let vmid := vmid p in
  try_except
    (vm <- get_instance c vmid;;
     (if negb (nonempty vm) then fail_json (MsgNotInCluster vmid)
      else ret tt);;
     st <- current_status c vm vmid;;
     (if st =? "running" then exit_json false (MsgAlreadyRunning vmid)
      else ret tt);;
     ok <- start_instance fuel c vm vmid (timeout p);;
     if ok then exit_json true (MsgStarted vmid) else ret tt)
    (fun e => fail_json (MsgFailedWithException "starting" vmid e)).

(** [elif state == 'stopped':] *)
Definition state_stopped (fuel : nat) (c : cluster) (p : params) : M unit :=
  let vmid := vmid p in
  try_except
    (vm <- get_instance c vmid;;
     (if negb (nonempty vm) then fail_json (MsgNotInCluster vmid)
      else ret tt);;
     st <- current_status c vm vmid;;
     (if st =? "mounted" then
        if force p then
          ok <- umount_instance fuel c vm vmid (timeout p);;
          if ok then exit_json true (MsgShuttingDown vmid) else ret tt
        else exit_json false (MsgShutdownButMounted vmid)
      else ret tt);;
     st <- current_status c vm vmid;;
     (if st =? "stopped" then exit_json false (MsgAlreadyShutdown vmid)
      else ret tt);;
     ok <- stop_instance fuel c vm vmid (timeout p) (force p);;
     if ok then exit_json true (MsgShuttingDown vmid) else ret tt)
    (fun e => fail_json (MsgFailedWithException "stopping" vmid e)).

(** [elif state == 'restarted':] *)
Definition state_restarted (fuel : nat) (c : cluster) (p : params) : M unit :=
  let vmid := vmid p in
  try_except
    (vm <- get_instance c vmid;;
     (if negb (nonempty vm) then fail_json (MsgNotInCluster vmid)
      else ret tt);;
     st <- current_status c vm vmid;;
     down <- (if st =? "stopped" then ret true
              else st' <- current_status c vm vmid;;
                   ret (st' =? "mounted"));;
     (if down then exit_json false (MsgNotRunning vmid) else ret tt);;
     ok <- stop_instance fuel c vm vmid (timeout p) (force p);;
     ok <- (if ok then start_instance fuel c vm vmid (timeout p)
            else ret false);;
     if ok then exit_json true (MsgRestarted vmid) else ret tt)
    (fun e => fail_json (MsgFailedWithException "restarting" vmid e)).

(** [elif state == 'absent':] *)
Definition state_absent (fuel : nat) (c : cluster) (p : params) : M unit :=
  let vmid := vmid p in
  try_except
    (vm <- get_instance c vmid;;
     (if negb (nonempty vm) then exit_json false (MsgNotExist vmid)
      else ret tt);;
     st <- current_status c vm vmid;;
     (if st =? "running" then exit_json false (MsgRunningStopFirst vmid)
      else ret tt);;
     st <- current_status c vm vmid;;
     (if st =? "mounted" then
        exit_json false (MsgMountedForceStopFirst vmid)
      else ret tt);;
     n <- vm0_node vm;;
     send (DeleteVM n vmid);;
     let taskid := delete_task c n vmid in
     while_timeout fuel (timeout p)
       (poll c (Some n) taskid
             (exit_json (A := loop_ctl unit) true (MsgRemoved vmid))
             reached_timeout_unbound);;
     ret tt)
    (fun e => fail_json (MsgFailedWithException "deletion" vmid e)).

(** [main()]: the checks before the session is open, then the block of
    the requested state. *)
Definition main (fuel : nat) (h : host) (c : cluster) (p : params) : M unit :=
  (if negb (HAS_PROXMOXER h) then fail_json MsgProxmoxerRequired else ret tt);;
  (* If password not set get it from PROXMOX_PASSWORD env *)
  api_password <-
    (if negb (truthy (api_password p)) then
       match PROXMOX_PASSWORD h with
       | Some pw => ret (Some pw)
       | None => fail_json MsgPasswordRequired
       end
     else ret (api_password p));;
  try_except (ProxmoxAPI c (api_user p) api_password)
             (fun e => fail_json (MsgAuthorizationFailed e));;
  match state p with
  | present => state_present fuel c p
  | started => state_started fuel c p
  | stopped => state_stopped fuel c p
  | restarted => state_restarted fuel c p
  | absent => state_absent fuel c p
  end.

(** The world once the session is open. *)
Definition logged_in (p : params) : world :=
  {| now := 0; trace := [(0, AccessTicket (api_user p))] |}.

(** One invocation of the module, from a fresh process. *)
Definition invoke (fuel : nat) (h : host) (c : cluster) (p : params)
  : res unit * world :=
  main fuel h c p boot.

(** ** Reading a run *)

(** The outcome reported by a run, if any. *)
Definition reported {A : Type} (r : res A * world) : option outcome :=
  match fst r with
  | Exit o => Some o
  | _ => None
  end.

(** The requests of a run, in order, without their time stamps. *)
Definition calls {A : Type} (r : res A * world) : list call :=
  map snd (trace (snd r)).

(** Requests that change the cluster. *)
Definition mutating (q : call) : bool :=
  match q with
  | CreatePost _ _ | StartPost _ _ | ShutdownPost _ _ _
  | UmountPost _ _ | DeleteVM _ _ => true
  | _ => false
  end.

Definition is_delete (q : call) : bool :=
  match q with
  | DeleteVM _ _ => true
  | _ => false
  end.

Definition not_delete (q : call) : bool := negb (is_delete q).

(** The keyword arguments with which [main] calls [openvz.create] for the
    declaration [p]. *)
Definition kwargs_of (p : params) : create_args :=
  {| c_vmid := vmid p; c_storage := storage p; c_memory := memory p;
     c_swap := swap p; c_cpus := cpus p; c_disk := disk p;
     c_password := password p; c_hostname := hostname p;
     c_ostemplate := ostemplate p; c_netif := netif p;
     c_ip_address := ip_address p; c_onboot := Z.b2z (onboot p);
     c_cpuunits := cpuunits p; c_nameserver := nameserver p;
     c_searchdomain := searchdomain p; c_force := Z.b2z (force p) |}.

Definition is_task_status (q : call) : bool :=
  match q with
  | TaskStatusGet _ _ => true
  | _ => false
  end.

(** A task is finished when its status is ['stopped'] with exit status
    ['OK']. *)
Definition finished (s : task_state) : bool :=
  (status s =? "stopped") && (exitstatus s =? "OK").

(** Every request that [m] sends satisfies [P], in whatever world [m]
    is run and however the run ends. *)
Definition sends_only {A : Type} (P : call -> bool) (m : M A) : Prop :=
  forall w, exists evs,
    trace (snd (m w)) = (trace w ++ evs)%list
    /\ forallb (fun e => P (snd e)) evs = true.

(** What the script observes of container [vmid]: the status of the
    first entry [get_instance] finds, [None] when it finds none. *)
Definition observed_status (c : cluster) (vmid : Z) : option string :=
  match filter (fun vm => (vm_id vm =? vmid)%Z) (resources c) with
  | v :: _ => Some (current c (vm_node v) vmid)
  | [] => None
  end.

(** [node_check] and [content_check] find an entry. *)
Definition has_node (c : cluster) (node : pystr) : bool :=
  existsb (fun nd => eq_pystr nd node) (nodes c).

Definition has_template (c : cluster) (node ostemplate : pystr)
           (storage : string) : bool :=
  existsb (fun volid => eq_pystr volid ostemplate) (content c node storage).

(** ** Ticks of a polling session

    A polling session is one run of a [while timeout:] loop.  Its ticks
    are counted from 1: tick [j] is the [j]-th pass of the loop, which
    queries the task [j - 1] sleeps of one second after the session was
    entered. *)

(** The tick of the session entered in [w0] that second [s] falls in. *)
Definition tick_of (w0 : world) (s : nat) : nat := S (s - now w0).

(** What the task answers in tick [j] of the session entered in [w0]. *)
Definition answer_in_tick (c : cluster) (task : taskid) (w0 : world)
           (j : nat) : task_state :=
  task_status c task (now w0 + (j - 1)).

(** The tick in which a run that started in [w0] ended. *)
Definition last_tick {A : Type} (w0 : world) (r : res A * world) : nat :=
  tick_of w0 (now (snd r)).

(** The requests sent since [w0]. *)
Definition since (w0 w : world) : list (nat * call) :=
  skipn (length (trace w0)) (trace w).

(** The ticks in which the run queried the status of a task. *)
Definition polled_ticks {A : Type} (w0 : world) (r : res A * world)
  : list nat :=
  map (fun e => tick_of w0 (fst e))
      (filter (fun e => is_task_status (snd e)) (since w0 (snd r))).

(** The task is first finished in tick [k]. *)
Definition first_finished_in (c : cluster) (task : taskid) (w0 : world)
           (k : nat) : Prop :=
  finished (answer_in_tick c task w0 k) = true
  /\ forall j, 1 <= j < k -> finished (answer_in_tick c task w0 j) = false.

(** The task is not finished in any of the ticks 1 .. [n]. *)
Definition unfinished_through (c : cluster) (task : taskid) (w0 : world)
           (n : nat) : Prop :=
  forall j, 1 <= j <= n -> finished (answer_in_tick c task w0 j) = false.

(** The status queries of a session that lasts from second [lo] to
    second [hi], the last of them in second [hi]. *)
Definition session_queries (node : pystr) (task : taskid) (lo hi : nat)
           (evs : list (nat * call)) : Prop :=
  In (hi, TaskStatusGet node task) evs
  /\ Forall (fun e => snd e = TaskStatusGet node task /\ lo <= fst e <= hi)
            evs.

(** The contract of a poller with budget [t], for a run [r] entered in
    [w0] that waits for [task]: success, with value [ok], in the tick in
    which the task is first finished; the timeout failure in tick [t]
    when it is not finished by then; and no status query after tick [t]. *)
Definition poller_contract {A : Type} (c : cluster) (task : taskid)
           (t : Z) (w0 : world) (r : res A * world) (ok : A)
           (what : string) : Prop :=
  (forall k, 1 <= k <= Z.to_nat t ->
     first_finished_in c task w0 k ->
     fst r = Ret ok
     /\ last_tick w0 r = k
     /\ In k (polled_ticks w0 r)
     /\ Forall (fun j => j <= k) (polled_ticks w0 r))
  /\ (unfinished_through c task w0 (Z.to_nat t) ->
      fst r = Exit (FailJson (MsgReachedTimeout what
                                (firstn 1 (task_log c task))))
      /\ last_tick w0 r = Z.to_nat t
      /\ In (Z.to_nat t) (polled_ticks w0 r)
      /\ Forall (fun j => j <= Z.to_nat t) (polled_ticks w0 r)).

(** The node of the first entry [get_instance] finds for [vmid]:
    [vm[0]['node']]. *)
Definition observed_node (c : cluster) (vmid : Z) : option string :=
  match filter (fun vm => (vm_id vm =? vmid)%Z) (resources c) with
  | v :: _ => Some (vm_node v)
  | [] => None
  end.

(** The mutating requests that the block of a state has in its text. *)
Definition in_block (s : desired_state) (q : call) : bool :=
  match s, q with
  | present, CreatePost _ _ => true
  | started, StartPost _ _ => true
  | stopped, (UmountPost _ _ | ShutdownPost _ _ _) => true
  | restarted, (ShutdownPost _ _ _ | StartPost _ _) => true
  | absent, DeleteVM _ _ => true
  | _, _ => false
  end.

(** A request is allowed for state [s]: it is read-only, or it is one of
    the mutating requests of the block of [s]. *)
Definition allowed (s : desired_state) (q : call) : bool :=
  negb (mutating q) || in_block s q.

(** [m] comes to an end, from whatever world it is run, and has then
    slept at most [n] seconds: the run is not [Spin] and the clock has
    advanced by at most [n]. *)
Definition ends_within {A : Type} (n : nat) (m : M A) : Prop :=
  forall w,
    fst (m w) <> Spin /\ now w <= now (snd (m w)) <= now w + n.

(** The task is not finished at any second from [s0] on. *)
Definition never_finished (c : cluster) (task : taskid) (s0 : nat) : Prop :=
  forall s, s0 <= s -> finished (task_status c task s) = false.

(** The module can open a session: [proxmoxer] is installed, a password
    is at hand and the cluster accepts it. *)
Definition connects (h : host) (c : cluster) (p : params) : bool :=
  HAS_PROXMOXER h
  && (if truthy (api_password p) then login c (api_user p) (api_password p)
      else match PROXMOX_PASSWORD h with
           | Some pw => login c (api_user p) (Some pw)
           | None => false
           end).

End Proxmox.

(* ====================================================================== *)
(** * Concrete declarations and remote states *)
(* ====================================================================== *)

Module Fixtures.

(** ** datadog_monitor *)

Definition check_thresholds : Datadog.value :=
  Datadog.VDict [("ok", 1%Z); ("critical", 2%Z); ("warning", 1%Z)].

(** The "service monitor" of the module's EXAMPLES. *)
Definition service_check : Datadog.params :=
  {| Datadog.api_key := "6873258723457823548234234234";
     Datadog.app_key := "3248923456767823753287723821";
     Datadog.type_ := "service";
     Datadog.query := "check.over(tags).last(count).count_by_status()";
     Datadog.name := "Test check";
     Datadog.message := Some (Datadog.VStr "Arbitary alert message.");
     Datadog.silenced := None;
     Datadog.notify_no_data := Some (Datadog.VBool false);
     Datadog.no_data_timeframe := None;
     Datadog.timeout_h := None;
     Datadog.renotify_interval := None;
     Datadog.escalation_message := None;
     Datadog.notify_audit := None;
     Datadog.thresholds := Some check_thresholds |}.

(** The same declaration with the type of a metric monitor. *)
Definition metric_check : Datadog.params :=
  {| Datadog.api_key := "6873258723457823548234234234";
     Datadog.app_key := "3248923456767823753287723821";
     Datadog.type_ := "metric alert";
     Datadog.query := "avg(last_1h):sum:system.net.bytes_rcvd{host:host0} > 100";
     Datadog.name := "Test check";
     Datadog.message := Some (Datadog.VStr "Arbitary alert message.");
     Datadog.silenced := None;
     Datadog.notify_no_data := Some (Datadog.VBool false);
     Datadog.no_data_timeframe := None;
     Datadog.timeout_h := None;
     Datadog.renotify_interval := None;
     Datadog.escalation_message := None;
     Datadog.notify_audit := None;
     Datadog.thresholds := Some check_thresholds |}.

Definition existing_monitor : Datadog.monitor :=
  {| Datadog.mon_name := "Test check";
     Datadog.mon_type := "service";
     Datadog.mon_query := "check.over(tags).last(2).count_by_status()";
     Datadog.mon_options := [] |}.

(** A service that lists "Test check" and accepts registrations. *)
Definition datadog_up : Datadog.api :=
  {| Datadog.list_status := 200;
     Datadog.list_monitors := [existing_monitor];
     Datadog.post_status := fun _ => 200%Z;
     Datadog.post_id := fun _ => Some 2081%Z |}.

(** The same service while its listing answers 503. *)
Definition datadog_listing_down : Datadog.api :=
  {| Datadog.list_status := 503;
     Datadog.list_monitors := [existing_monitor];
     Datadog.post_status := fun _ => 200%Z;
     Datadog.post_id := fun _ => Some 2082%Z |}.

(** A service that lists no monitor; its registration POST answers with
    [status] and the id [id]. *)
Definition datadog_fresh (status : Z) (id : option Z) : Datadog.api :=
  {| Datadog.list_status := 200;
     Datadog.list_monitors := [];
     Datadog.post_status := fun _ => status;
     Datadog.post_id := fun _ => id |}.

(** ** proxmox *)

Definition declaration (st : Proxmox.desired_state) (t : Z) : Proxmox.params :=
  {| Proxmox.state := st;
     Proxmox.api_user := "root@pam";
     Proxmox.api_host := "node1";
     Proxmox.api_password := Some "1q2w3e";
     Proxmox.vmid := 100;
     Proxmox.https_verify_ssl := false;
     Proxmox.node := Some "uk-mc02";
     Proxmox.password := Some "123456";
     Proxmox.hostname := Some "example.org";
     Proxmox.ostemplate := Some "local:vztmpl/ubuntu-14.04-x86_64.tar.gz";
     Proxmox.disk := 3;
     Proxmox.cpus := 1;
     Proxmox.memory := 512;
     Proxmox.swap := 0;
     Proxmox.netif := None;
     Proxmox.ip_address := None;
     Proxmox.onboot := false;
     Proxmox.storage := "local";
     Proxmox.cpuunits := 1000;
     Proxmox.nameserver := None;
     Proxmox.searchdomain := None;
     Proxmox.timeout := t;
     Proxmox.force := false |}.

(** The declaration above without [hostname]. *)
Definition declaration_no_hostname (t : Z) : Proxmox.params :=
  {| Proxmox.state := Proxmox.present;
     Proxmox.api_user := "root@pam";
     Proxmox.api_host := "node1";
     Proxmox.api_password := Some "1q2w3e";
     Proxmox.vmid := 100;
     Proxmox.https_verify_ssl := false;
     Proxmox.node := Some "uk-mc02";
     Proxmox.password := Some "123456";
     Proxmox.hostname := None;
     Proxmox.ostemplate := Some "local:vztmpl/ubuntu-14.04-x86_64.tar.gz";
     Proxmox.disk := 3;
     Proxmox.cpus := 1;
     Proxmox.memory := 512;
     Proxmox.swap := 0;
     Proxmox.netif := None;
     Proxmox.ip_address := None;
     Proxmox.onboot := false;
     Proxmox.storage := "local";
     Proxmox.cpuunits := 1000;
     Proxmox.nameserver := None;
     Proxmox.searchdomain := None;
     Proxmox.timeout := t;
     Proxmox.force := false |}.

Definition workstation : Proxmox.host :=
  {| Proxmox.HAS_PROXMOXER := true; Proxmox.PROXMOX_PASSWORD := None |}.

Definition task_running : Proxmox.task_state :=
  {| Proxmox.status := "running"; Proxmox.exitstatus := EmptyString |}.

Definition task_ok : Proxmox.task_state :=
  {| Proxmox.status := "stopped"; Proxmox.exitstatus := "OK" |}.

(** A task that never finishes. *)
Definition never : nat -> Proxmox.task_state := fun _ => task_running.

(** A task that is finished from second [s] on. *)
Definition done_from (s : nat) : nat -> Proxmox.task_state :=
  fun t => if (s <=? t)%nat then task_ok else task_running.

(** A cluster with the node and the template of [declaration]; [vms]
    are its containers, all in status [st]; every task behaves as
    [progress] and has the log [log]. *)
Definition lab (vms : list Proxmox.vm) (st : string)
           (progress : nat -> Proxmox.task_state) (log : list string)
  : Proxmox.cluster :=
  {| Proxmox.login := fun _ _ => true;
     Proxmox.resources := vms;
     Proxmox.nodes := ["uk-mc01"; "uk-mc02"];
     Proxmox.content := fun _ _ =>
       ["local:vztmpl/ubuntu-14.04-x86_64.tar.gz"];
     Proxmox.current := fun _ _ => st;
     Proxmox.create_task := fun _ _ => "UPID:vzcreate";
     Proxmox.start_task := fun _ _ => "UPID:vzstart";
     Proxmox.shutdown_task := fun _ _ _ => "UPID:vzshutdown";
     Proxmox.umount_task := fun _ _ => "UPID:vzumount";
     Proxmox.delete_task := fun _ _ => "UPID:vzdestroy";
     Proxmox.task_status := fun _ => progress;
     Proxmox.task_log := fun _ => log |}.

(** A cluster that has neither the node nor the template of
    [declaration], and no container. *)
Definition bare_cluster : Proxmox.cluster :=
  {| Proxmox.login := fun _ _ => true;
     Proxmox.resources := [];
     Proxmox.nodes := ["uk-mc01"];
     Proxmox.content := fun _ _ => [];
     Proxmox.current := fun _ _ => "stopped";
     Proxmox.create_task := fun _ _ => "UPID:vzcreate";
     Proxmox.start_task := fun _ _ => "UPID:vzstart";
     Proxmox.shutdown_task := fun _ _ _ => "UPID:vzshutdown";
     Proxmox.umount_task := fun _ _ => "UPID:vzumount";
     Proxmox.delete_task := fun _ _ => "UPID:vzdestroy";
     Proxmox.task_status := fun _ => never;
     Proxmox.task_log := fun _ => [] |}.

(** A cluster that has the node of [declaration] but no template in its
    storage, and no container. *)
Definition cluster_without_template : Proxmox.cluster :=
  {| Proxmox.login := fun _ _ => true;
     Proxmox.resources := [];
     Proxmox.nodes := ["uk-mc01"; "uk-mc02"];
     Proxmox.content := fun _ _ => [];
     Proxmox.current := fun _ _ => "stopped";
     Proxmox.create_task := fun _ _ => "UPID:vzcreate";
     Proxmox.start_task := fun _ _ => "UPID:vzstart";
     Proxmox.shutdown_task := fun _ _ _ => "UPID:vzshutdown";
     Proxmox.umount_task := fun _ _ => "UPID:vzumount";
     Proxmox.delete_task := fun _ _ => "UPID:vzdestroy";
     Proxmox.task_status := fun _ => never;
     Proxmox.task_log := fun _ => [] |}.

(** A cluster that rejects every login. *)
Definition closed_cluster : Proxmox.cluster :=
  {| Proxmox.login := fun _ _ => false;
     Proxmox.resources := [];
     Proxmox.nodes := ["uk-mc01"];
     Proxmox.content := fun _ _ => [];
     Proxmox.current := fun _ _ => "stopped";
     Proxmox.create_task := fun _ _ => "UPID:vzcreate";
     Proxmox.start_task := fun _ _ => "UPID:vzstart";
     Proxmox.shutdown_task := fun _ _ _ => "UPID:vzshutdown";
     Proxmox.umount_task := fun _ _ => "UPID:vzumount";
     Proxmox.delete_task := fun _ _ => "UPID:vzdestroy";
     Proxmox.task_status := fun _ => never;
     Proxmox.task_log := fun _ => [] |}.

(** The declaration of [declaration] with [force] set. *)
Definition forced (st : Proxmox.desired_state) (t : Z) : Proxmox.params :=
  {| Proxmox.state := st;
     Proxmox.api_user := "root@pam";
     Proxmox.api_host := "node1";
     Proxmox.api_password := Some "1q2w3e";
     Proxmox.vmid := 100;
     Proxmox.https_verify_ssl := false;
     Proxmox.node := Some "uk-mc02";
     Proxmox.password := Some "123456";
     Proxmox.hostname := Some "example.org";
     Proxmox.ostemplate := Some "local:vztmpl/ubuntu-14.04-x86_64.tar.gz";
     Proxmox.disk := 3;
     Proxmox.cpus := 1;
     Proxmox.memory := 512;
     Proxmox.swap := 0;
     Proxmox.netif := None;
     Proxmox.ip_address := None;
     Proxmox.onboot := false;
     Proxmox.storage := "local";
     Proxmox.cpuunits := 1000;
     Proxmox.nameserver := None;
     Proxmox.searchdomain := None;
     Proxmox.timeout := t;
     Proxmox.force := true |}.

(** The declaration of [declaration] without any password; to be run on
    a host that has none in its environment either. *)
Definition without_password : Proxmox.params :=
  {| Proxmox.state := Proxmox.present;
     Proxmox.api_user := "root@pam";
     Proxmox.api_host := "node1";
     Proxmox.api_password := None;
     Proxmox.vmid := 100;
     Proxmox.https_verify_ssl := false;
     Proxmox.node := Some "uk-mc02";
     Proxmox.password := Some "123456";
     Proxmox.hostname := Some "example.org";
     Proxmox.ostemplate := Some "local:vztmpl/ubuntu-14.04-x86_64.tar.gz";
     Proxmox.disk := 3;
     Proxmox.cpus := 1;
     Proxmox.memory := 512;
     Proxmox.swap := 0;
     Proxmox.netif := None;
     Proxmox.ip_address := None;
     Proxmox.onboot := false;
     Proxmox.storage := "local";
     Proxmox.cpuunits := 1000;
     Proxmox.nameserver := None;
     Proxmox.searchdomain := None;
     Proxmox.timeout := 30;
     Proxmox.force := false |}.

Definition vm100 : Proxmox.vm :=
  {| Proxmox.vm_id := 100; Proxmox.vm_node := "uk-mc02" |}.

Definition two_lines : list string :=
  ["starting task"; "waiting for lock"].

End Fixtures.

(* ====================================================================== *)
(** * Properties of datadog_monitor *)
(* ====================================================================== *)

Module DatadogFacts.
Import Datadog Fixtures.

(** The scan of [installed] raises its flag exactly when some monitor of
    the listing has the declared name. *)
Lemma scan_is_existsb (nm : string) (l : list monitor) (flag : bool) :
  fold_left
    (fun installed monitor =>
       if mon_name monitor =? nm then true else installed) l flag
  = flag || existsb (fun monitor => mon_name monitor =? nm) l.
Proof.
  revert flag; induction l as [|m l IH]; intros flag; simpl.
  - now rewrite orb_false_r.
  - rewrite IH. destruct (mon_name m =? nm); simpl.
    + now rewrite orb_true_r.
    + reflexivity.
Qed.

Lemma installed_listing (a : api) (p : params) :
  list_status a = 200%Z ->
  installed a p = (listed a p, [GET (monitor_uri p)]).
Proof.
  intros H. unfold installed, listed. rewrite H. simpl.
  now rewrite scan_is_existsb.
Qed.

(** Whatever the listing holds, a lookup that does not answer 200 leaves
    the flag down. *)
Lemma installed_lookup_failure (a : api) (p : params) :
  list_status a <> 200%Z ->
  installed a p = (false, [GET (monitor_uri p)]).
Proof.
  intros H. unfold installed.
  destruct (Z.eqb_spec (list_status a) 200); [contradiction | reflexivity].
Qed.

(** C1 (the code departs from the claim).  The listing answers 503 while
    "Test check" exists remotely: [installed] returns [False], the
    registration POST is sent and the invocation reports changed=true,
    where the comment in [installed] and the claim ask for "assume it is
    installed", changed=false and no POST. *)
Theorem C1_lookup_failure_registers :
  list_status datadog_listing_down = 503%Z
  /\ listed datadog_listing_down service_check = true
  /\ fst (installed datadog_listing_down service_check) = false
  /\ fst (main datadog_listing_down service_check) = ExitJson true
  /\ existsb mutating (snd (main datadog_listing_down service_check)) = true.
Proof. repeat split; reflexivity. Qed.

(** C8 as stated fails: "Test check" is listed, but the declaration is a
    metric monitor with thresholds, and the invocation ends in the
    validation error instead of changed=false. *)
Lemma C8_counterexample :
  list_status datadog_up = 200%Z
  /\ listed datadog_up metric_check = true
  /\ main datadog_up metric_check = (FailJson MsgThresholds, [])
  /\ fst (main datadog_up metric_check) <> ExitJson false.
Proof. repeat split; try reflexivity. discriminate. Qed.

(** C8 (amended).  When the listing answers 200 and holds a monitor whose
    name equals the declared name, and the declaration is not a metric
    monitor with thresholds, the invocation exits with changed=false and
    sends nothing but the listing GET, whatever the declared query,
    thresholds and options and whatever the attributes of the existing
    monitor. *)
Theorem C8_existing_monitor_is_left_alone (a : api) (p : params) :
  list_status a = 200%Z ->
  listed a p = true ->
  (type_ p = "metric alert" -> thresholds p = None) ->
  main a p = (ExitJson false, [GET (monitor_uri p)])
  /\ existsb mutating (snd (main a p)) = false.
Proof.
  intros Hst Hl Hv.
  assert (E : main a p = (ExitJson false, [GET (monitor_uri p)])).
  { unfold main, post_monitor.
    destruct (String.eqb_spec (type_ p) "metric alert") as [Ht|Ht]; simpl.
    - rewrite (Hv Ht). rewrite installed_listing, Hl by assumption.
      reflexivity.
    - rewrite installed_listing, Hl by assumption. reflexivity. }
  rewrite E. split; reflexivity.
Qed.

Lemma C8_witness :
  main datadog_up service_check
  = (ExitJson false, [GET (monitor_uri service_check)])
  /\ existsb mutating (snd (main datadog_up service_check)) = false.
Proof.
  apply (C8_existing_monitor_is_left_alone datadog_up service_check).
  - reflexivity.
  - reflexivity.
  - simpl. discriminate.
Defined.

(** C9.  A declaration of type 'metric alert' with thresholds set fails
    with "thresholds may not be set for metric monitors", and no HTTP
    request has been sent. *)
Theorem C9_metric_thresholds_rejected (a : api) (p : params) :
  type_ p = "metric alert" ->
  thresholds p <> None ->
  main a p = (FailJson MsgThresholds, []).
Proof.
  intros Ht Hth. unfold main, post_monitor. rewrite Ht.
  destruct (thresholds p); [reflexivity | contradiction].
Qed.

Lemma C9_witness :
  main datadog_up metric_check = (FailJson MsgThresholds, []).
Proof.
  apply (C9_metric_thresholds_rejected datadog_up metric_check).
  - reflexivity.
  - simpl. discriminate.
Defined.

End DatadogFacts.

(* ====================================================================== *)
(** * Properties of proxmox *)
(* ====================================================================== *)

Module ProxmoxFacts.
Import Proxmox Fixtures.
Local Open Scope list_scope.

(** ** Opening the session *)

(** Once the session is open, [main] is the block of the requested state,
    run in the world that holds the ticket request. *)
Lemma main_connected (fuel : nat) (h : host) (c : cluster) (p : params) :
  connects h c p = true ->
  invoke fuel h c p
  = match state p with
    | present => state_present fuel c p
    | started => state_started fuel c p
    | stopped => state_stopped fuel c p
    | restarted => state_restarted fuel c p
    | absent => state_absent fuel c p
    end (logged_in p).
Proof.
  unfold connects, invoke, main, boot, logged_in. intros H.
  apply andb_prop in H as [Hp Hl]. rewrite Hp.
  unfold bind, ret, try_except, ProxmoxAPI, send, fail_json, raise; simpl.
  destruct (truthy (api_password p)); simpl.
  - rewrite Hl. reflexivity.
  - destruct (PROXMOX_PASSWORD h) as [pw|]; [|discriminate].
    simpl. rewrite Hl. reflexivity.
Qed.

(** ** Lists *)

Lemma nonempty_map_filter {A B : Type} (f : A -> B) (g : A -> bool)
      (l : list A) :
  nonempty (map f (filter g l)) = existsb g l.
Proof.
  induction l as [|a l IH]; simpl; [reflexivity|].
  destruct (g a); simpl; [reflexivity | exact IH].
Qed.

(** ** Runs on the fixtures *)

(** C3 (the code departs from the claim).  State 'present', no container
    100, [hostname] not supplied: the condition of the mandatory-field
    check is [not (node, ...)], the negation of a two-element tuple,
    which is always false.  The node listing and the storage listing are
    queried, the container is created without a hostname and the run
    reports changed=true; the message about mandatory fields is not
    produced. *)
Theorem C3_missing_hostname_is_not_rejected :
  hostname (declaration_no_hostname 5) = None
  /\ observed_status (lab [] "running" (done_from 0) two_lines) 100 = None
  /\ reported (invoke 5 workstation
                      (lab [] "running" (done_from 0) two_lines)
                      (declaration_no_hostname 5))
     = Some (ExitJson true
               (MsgDeployed 100 (ostemplate (declaration_no_hostname 5))))
  /\ filter (fun q => negb (is_task_status q))
            (calls (invoke 5 workstation
                           (lab [] "running" (done_from 0) two_lines)
                           (declaration_no_hostname 5)))
     = [AccessTicket "root@pam"; ResourcesGet; NodesGet;
        ContentGet (Some "uk-mc02") "local";
        CreatePost (Some "uk-mc02")
          {| c_vmid := 100; c_storage := "local"; c_memory := 512;
             c_swap := 0; c_cpus := 1; c_disk := 3;
             c_password := Some "123456"; c_hostname := None;
             c_ostemplate :=
               Some "local:vztmpl/ubuntu-14.04-x86_64.tar.gz";
             c_netif := None; c_ip_address := None; c_onboot := 0;
             c_cpuunits := 1000; c_nameserver := None;
             c_searchdomain := None; c_force := 0 |}].
Proof. repeat split; reflexivity. Qed.

(** The mandatory-field message is out of reach of the 'present' block:
    its guard is the negation of a tuple. *)
Lemma mandatory_guard_is_false (p : params) :
  negb (tuple2_truthy
          (node p, py_and (py_and (hostname p) (password p)) (ostemplate p)))
  = false.
Proof. reflexivity. Qed.

(** C4 (the code departs from the claim).  State 'started' with
    timeout = 0 on a stopped container: the start request is sent, the
    loop of [start_instance] is not entered, [start_instance] returns
    [False], and [main] ends without [exit_json] or [fail_json].  The
    same happens for 'absent' with timeout = 0: the container is deleted
    and nothing is reported. *)
Theorem C4_timeout_zero_reports_nothing :
  invoke 5 workstation (lab [vm100] "stopped" never two_lines)
         (declaration started 0)
  = (Ret tt,
     {| now := 0;
        trace := [(0, AccessTicket "root@pam"); (0, ResourcesGet);
                  (0, CurrentGet "uk-mc02" 100);
                  (0, StartPost "uk-mc02" 100)] |})
  /\ reported (invoke 5 workstation (lab [vm100] "stopped" never two_lines)
                      (declaration started 0)) = None
  /\ reported (invoke 5 workstation (lab [vm100] "stopped" never two_lines)
                      (declaration absent 0)) = None
  /\ existsb is_delete
       (calls (invoke 5 workstation (lab [vm100] "stopped" never two_lines)
                      (declaration absent 0))) = true.
Proof. repeat split; reflexivity. Qed.

(** C5 (the code departs from the claim).  The log of the task has two
    lines.  A 'stopped' request on a running container whose shutdown
    never finishes, with timeout = 2: the timeout statement of
    [stop_instance] names [proxmox_node], which is not bound there, so a
    [NameError] is raised before the log is fetched and [main] reports
    "stopping of VM 100 failed with exception: ..." with no line of the
    log; the same for 'absent'.  A 'present' request whose creation never
    finishes, with timeout = 3: the message carries [log[:1]], the first
    line of the log, not the last. *)
Theorem C5_timeout_message_lacks_last_line :
  task_log (lab [vm100] "running" never two_lines) "UPID:vzshutdown"
  = ["starting task"; "waiting for lock"]
  /\ reported (invoke 5 workstation (lab [vm100] "running" never two_lines)
                      (declaration stopped 2))
     = Some (FailJson (MsgFailedWithException "stopping" 100
                         (NameError "proxmox_node")))
  /\ reported (invoke 5 workstation (lab [vm100] "stopped" never two_lines)
                      (declaration absent 2))
     = Some (FailJson (MsgFailedWithException "deletion" 100
                         (NameError "proxmox_node")))
  /\ reported (invoke 5 workstation (lab [] "running" never two_lines)
                      (declaration present 3))
     = Some (FailJson (MsgReachedTimeout "creating" ["starting task"]))
  /\ last two_lines EmptyString = "waiting for lock".
Proof. repeat split; reflexivity. Qed.

(** ** What a computation can send *)

Section SendsOnly.
Variable P : call -> bool.

Lemma sends_only_silent {A : Type} (m : M A) :
  (forall w, snd (m w) = w) -> sends_only P m.
Proof.
  intros H w. exists []. rewrite H, app_nil_r. split; reflexivity.
Qed.

Lemma sends_only_ret {A : Type} (a : A) : sends_only P (ret a).
Proof. apply sends_only_silent; reflexivity. Qed.

Lemma sends_only_exit_json {A : Type} (ch : bool) (msg : message) :
  sends_only P (exit_json (A := A) ch msg).
Proof. apply sends_only_silent; reflexivity. Qed.

Lemma sends_only_fail_json {A : Type} (msg : message) :
  sends_only P (fail_json (A := A) msg).
Proof. apply sends_only_silent; reflexivity. Qed.

Lemma sends_only_raise {A : Type} (e : exn) :
  sends_only P (raise (A := A) e).
Proof. apply sends_only_silent; reflexivity. Qed.

Lemma sends_only_spin {A : Type} : sends_only P (spin (A := A)).
Proof. apply sends_only_silent; reflexivity. Qed.

Lemma sends_only_clock : sends_only P clock.
Proof. apply sends_only_silent; reflexivity. Qed.

Lemma sends_only_sleep (n : nat) : sends_only P (sleep n).
Proof.
  intros w. exists []. simpl. rewrite app_nil_r. split; reflexivity.
Qed.

Lemma sends_only_send (q : call) : P q = true -> sends_only P (send q).
Proof.
  intros H w. exists [(now w, q)]. simpl. rewrite H. split; reflexivity.
Qed.

Lemma sends_only_bind {A B : Type} (m : M A) (f : A -> M B) :
  sends_only P m -> (forall a, sends_only P (f a)) ->
  sends_only P (bind m f).
Proof.
  intros Hm Hf w. unfold bind.
  destruct (Hm w) as (e1 & E1 & F1).
  destruct (m w) as [[a|o|e|] w1]; simpl in *;
    try (exists e1; split; assumption).
  destruct (Hf a w1) as (e2 & E2 & F2).
  exists (e1 ++ e2). rewrite E2, E1, app_assoc. split; [reflexivity|].
  rewrite forallb_app, F1, F2. reflexivity.
Qed.

Lemma sends_only_try_except {A : Type} (m : M A) (h : exn -> M A) :
  sends_only P m -> (forall e, sends_only P (h e)) ->
  sends_only P (try_except m h).
Proof.
  intros Hm Hh w. unfold try_except.
  destruct (Hm w) as (e1 & E1 & F1).
  destruct (m w) as [[a|o|e|] w1]; simpl in *;
    try (exists e1; split; assumption).
  destruct (Hh e w1) as (e2 & E2 & F2).
  exists (e1 ++ e2). rewrite E2, E1, app_assoc. split; [reflexivity|].
  rewrite forallb_app, F1, F2. reflexivity.
Qed.

Lemma sends_only_while {A : Type} (fuel : nat) (body : Z -> M (loop_ctl A)) :
  (forall t, sends_only P (body t)) ->
  forall t, sends_only P (while_timeout fuel t body).
Proof.
  intros Hb. induction fuel as [|fuel IH]; intros t; simpl.
  - destruct (t =? 0)%Z; [apply sends_only_ret | apply sends_only_spin].
  - destruct (t =? 0)%Z; [apply sends_only_ret|].
    apply sends_only_bind; [apply Hb|].
    intros [a|t']; [apply sends_only_ret | apply IH].
Qed.

End SendsOnly.

Create HintDb sends.

#[local] Hint Resolve sends_only_ret sends_only_exit_json
  sends_only_fail_json sends_only_raise sends_only_spin sends_only_clock
  sends_only_sleep : sends.

(** One step of the syntax-directed proof that a script sends only
    requests in [P]: the side condition of [send] is left to
    [reflexivity]. *)
Ltac sends_step :=
  match goal with
  | |- sends_only _ (bind _ _) => apply sends_only_bind; [|intros]
  | |- sends_only _ (try_except _ _) =>
      apply sends_only_try_except; [|intros]
  | |- sends_only _ (while_timeout _ _ _) =>
      apply sends_only_while; intros
  | |- sends_only _ (send _) => apply sends_only_send; reflexivity
  | |- sends_only _ (if ?b then _ else _) => destruct b
  | |- sends_only _ (match ?x with _ => _ end) => destruct x
  | |- sends_only _ _ => solve [auto with sends]
  end.

Ltac sends := repeat sends_step.

Lemma task_queries_only (P : call -> bool) (c : cluster) (node : pystr)
      (task : taskid) :
  P (TaskStatusGet node task) = true ->
  sends_only P (task_status_get c node task).
Proof.
  intros H. unfold task_status_get.
  apply sends_only_bind; [apply sends_only_send; exact H|]. intros.
  sends.
Qed.

(** A pass of a polling loop sends what its two hooks send, and status
    queries. *)
Lemma poll_sends_only {A : Type} (P : call -> bool) (c : cluster)
      (node : pystr) (task : taskid) (fin : M (loop_ctl A))
      (expired : M unit) (t : Z) :
  P (TaskStatusGet node task) = true ->
  sends_only P fin -> sends_only P expired ->
  sends_only P (poll c node task fin expired t).
Proof.
  intros H Hf He. unfold poll.
  apply sends_only_bind; [apply task_queries_only; exact H|]. intros s.
  apply sends_only_bind.
  - destruct (status s =? "stopped"); [|sends].
    apply sends_only_bind; [apply task_queries_only; exact H|]. intros.
    sends.
  - intros ok. destruct ok; [exact Hf|].
    apply sends_only_bind; [|intros; sends].
    destruct (_ =? 0)%Z; [exact He | sends].
Qed.

(** ** The lifecycle blocks *)

Lemma stop_instance_never_deletes (fuel : nat) (c : cluster) (vm : list vm)
      (vmid t : Z) (f : bool) :
  sends_only not_delete (stop_instance fuel c vm vmid t f).
Proof.
  unfold stop_instance, vm0_node. sends.
  apply poll_sends_only; [reflexivity | sends | unfold reached_timeout_unbound; sends].
Qed.

Lemma umount_instance_never_deletes (fuel : nat) (c : cluster)
      (vm : list vm) (vmid t : Z) :
  sends_only not_delete (umount_instance fuel c vm vmid t).
Proof.
  unfold umount_instance, vm0_node. sends.
  apply poll_sends_only; [reflexivity | sends | unfold reached_timeout_unbound; sends].
Qed.

Lemma current_status_never_deletes (c : cluster) (vm : list vm) (vmid : Z) :
  sends_only not_delete (current_status c vm vmid).
Proof. unfold current_status, vm0_node. sends. Qed.

(** The 'stopped' block has no delete request, whatever it observes and
    whether or not its loops come to an end. *)
Lemma state_stopped_never_deletes (fuel : nat) (c : cluster) (p : params) :
  sends_only not_delete (state_stopped fuel c p).
Proof.
  unfold state_stopped, get_instance.
  apply sends_only_try_except; [|intros; sends].
  apply sends_only_bind; [sends|]. intros vm.
  apply sends_only_bind; [sends|]. intros _.
  apply sends_only_bind; [apply current_status_never_deletes|]. intros st.
  apply sends_only_bind.
  { destruct (st =? "mounted"); [|sends].
    destruct (force p); [|sends].
    apply sends_only_bind; [apply umount_instance_never_deletes|].
    intros; sends. }
  intros _.
  apply sends_only_bind; [apply current_status_never_deletes|]. intros st'.
  apply sends_only_bind; [sends|]. intros _.
  apply sends_only_bind; [apply stop_instance_never_deletes|].
  intros; sends.
Qed.

Lemma no_delete_in (evs : list (nat * call)) :
  forallb (fun e => not_delete (snd e)) evs = true ->
  existsb is_delete (map snd evs) = false.
Proof.
  induction evs as [|e evs IH]; simpl; [reflexivity|].
  unfold not_delete at 1. intros H. apply andb_prop in H as [H1 H2].
  destruct (is_delete (snd e)); [discriminate|]. simpl. auto.
Qed.

(** What [get_instance] and the status query yield for a container that
    is observed with status [st]. *)
Lemma observed_inv (c : cluster) (vmid : Z) (st : string) :
  observed_status c vmid = Some st ->
  exists v rest,
    filter (fun vm => (vm_id vm =? vmid)%Z) (resources c) = v :: rest
    /\ current c (vm_node v) vmid = st.
Proof.
  unfold observed_status.
  destruct (filter _ (resources c)) as [|v rest]; [discriminate|].
  intros H. injection H as H. exists v, rest. split; [reflexivity | exact H].
Qed.

Lemma started_on_running (fuel : nat) (c : cluster) (p : params) :
  observed_status c (vmid p) = Some "running" ->
  exists n,
    state_started fuel c p (logged_in p)
    = (Exit (ExitJson false (MsgAlreadyRunning (vmid p))),
       {| now := 0;
          trace := [(0, AccessTicket (api_user p)); (0, ResourcesGet);
                    (0, CurrentGet n (vmid p))] |}).
Proof.
  intros H. destruct (observed_inv _ _ _ H) as (v & rest & Hf & Hc).
  exists (vm_node v).
  unfold state_started, try_except, bind, get_instance, current_status,
    vm0_node, send, ret, exit_json, logged_in; simpl.
  rewrite Hf; simpl. rewrite Hc; simpl. reflexivity.
Qed.

Lemma absent_on_running (fuel : nat) (c : cluster) (p : params) :
  observed_status c (vmid p) = Some "running" ->
  exists n,
    state_absent fuel c p (logged_in p)
    = (Exit (ExitJson false (MsgRunningStopFirst (vmid p))),
       {| now := 0;
          trace := [(0, AccessTicket (api_user p)); (0, ResourcesGet);
                    (0, CurrentGet n (vmid p))] |}).
Proof.
  intros H. destruct (observed_inv _ _ _ H) as (v & rest & Hf & Hc).
  exists (vm_node v).
  unfold state_absent, try_except, bind, get_instance, current_status,
    vm0_node, send, ret, exit_json, logged_in; simpl.
  rewrite Hf; simpl. rewrite Hc; simpl. reflexivity.
Qed.

(** C6.  For a container observed with status 'running': a 'started'
    request reports changed=false and sends no mutating request; a
    'stopped' or 'absent' request sends no delete request (for 'stopped'
    this holds for every budget, finished or not); and an 'absent'
    request is a no-op that reports changed=false with the message that
    the container must be stopped first. *)
Theorem C6_running_resource (fuel : nat) (h : host) (c : cluster)
        (p : params) :
  connects h c p = true ->
  observed_status c (vmid p) = Some "running" ->
  (state p = started ->
   reported (invoke fuel h c p)
   = Some (ExitJson false (MsgAlreadyRunning (vmid p)))
   /\ existsb mutating (calls (invoke fuel h c p)) = false)
  /\ (state p = stopped \/ state p = absent ->
      existsb is_delete (calls (invoke fuel h c p)) = false)
  /\ (state p = absent ->
      reported (invoke fuel h c p)
      = Some (ExitJson false (MsgRunningStopFirst (vmid p)))
      /\ existsb mutating (calls (invoke fuel h c p)) = false).
Proof.
  intros Hc Hr. rewrite (main_connected fuel h c p Hc).
  split; [|split].
  - intros Hs. rewrite Hs.
    destruct (started_on_running fuel c p Hr) as (n & E). rewrite E.
    split; reflexivity.
  - intros [Hs|Hs]; rewrite Hs.
    + destruct (state_stopped_never_deletes fuel c p (logged_in p))
        as (evs & E & F).
      unfold calls. rewrite E, map_app, existsb_app.
      rewrite (no_delete_in evs F). reflexivity.
    + destruct (absent_on_running fuel c p Hr) as (n & E). rewrite E.
      reflexivity.
  - intros Hs. rewrite Hs.
    destruct (absent_on_running fuel c p Hr) as (n & E). rewrite E.
    split; reflexivity.
Qed.

(** ** One pass of a polling loop *)

Section Polling.
Context {A : Type}.
Variables (c : cluster) (node : pystr) (task : taskid).
Variables (fin : M (loop_ctl A)) (expired : M unit).

(** A pass that finds the task unfinished sends one or two status
    queries, all in the current second, and goes on with the countdown. *)
Lemma poll_unfinished (t : Z) (w : world) :
  finished (task_status c task (now w)) = false ->
  exists evs,
    In (now w, TaskStatusGet node task) evs
    /\ Forall (fun e => e = (now w, TaskStatusGet node task)) evs
    /\ poll c node task fin expired t w
       = bind (if (t - 1 =? 0)%Z then expired else ret tt)
              (fun _ => bind (sleep 1) (fun _ => ret (Again (t - 1)%Z)))
              {| now := now w; trace := trace w ++ evs |}.
Proof.
  unfold finished. intros H.
  unfold poll, task_status_get, bind, send, clock, ret, sleep. simpl.
  destruct (status (task_status c task (now w)) =? "stopped") eqn:E;
    simpl in *.
  - rewrite H.
    exists [(now w, TaskStatusGet node task);
            (now w, TaskStatusGet node task)].
    rewrite <- app_assoc. simpl.
    split; [left; reflexivity|]. split; [|reflexivity].
    repeat constructor.
  - exists [(now w, TaskStatusGet node task)].
    split; [left; reflexivity|]. split; [|reflexivity].
    repeat constructor.
Qed.

(** A pass that finds the task finished sends two status queries and
    takes the exit of the loop. *)
Lemma poll_finished (t : Z) (w : world) :
  finished (task_status c task (now w)) = true ->
  poll c node task fin expired t w
  = fin {| now := now w;
           trace := trace w ++ [(now w, TaskStatusGet node task);
                                (now w, TaskStatusGet node task)] |}.
Proof.
  unfold finished. intros H. apply andb_prop in H as [H1 H2].
  unfold poll, task_status_get, bind, send, clock, ret. simpl.
  rewrite H1. simpl. rewrite H2. rewrite <- app_assoc. reflexivity.
Qed.

End Polling.

(** ** The countdown loop *)

Lemma while_timeout_zero {A : Type} (fuel : nat) (body : Z -> M (loop_ctl A)) :
  while_timeout fuel 0 body = ret None.
Proof. destruct fuel; reflexivity. Qed.

Lemma while_timeout_step {A : Type} (fuel : nat) (t : Z)
      (body : Z -> M (loop_ctl A)) :
  t <> 0%Z ->
  while_timeout (S fuel) t body
  = bind (body t)
         (fun ctl =>
            match ctl with
            | Return a => ret (Some a)
            | Again t' => while_timeout fuel t' body
            end).
Proof.
  intros H. simpl. destruct (Z.eqb_spec t 0); [contradiction | reflexivity].
Qed.

Lemma session_queries_pass (node : pystr) (task : taskid) (s : nat)
      (evs : list (nat * call)) :
  In (s, TaskStatusGet node task) evs ->
  Forall (fun e => e = (s, TaskStatusGet node task)) evs ->
  session_queries node task s s evs.
Proof.
  intros Hi Hf. split; [exact Hi|].
  eapply Forall_impl; [|exact Hf]. intros e ->. simpl. auto.
Qed.

Lemma session_queries_cons (node : pystr) (task : taskid) (s hi : nat)
      (e1 e2 : list (nat * call)) :
  Forall (fun e => e = (s, TaskStatusGet node task)) e1 ->
  session_queries node task (S s) hi e2 ->
  session_queries node task s hi (e1 ++ e2).
Proof.
  intros H1 [Hi H2]. split; [apply in_or_app; right; exact Hi|].
  assert (s < hi).
  { rewrite Forall_forall in H2. apply H2 in Hi. simpl in Hi. lia. }
  apply Forall_app. split.
  - eapply Forall_impl; [|exact H1]. intros e ->. simpl. split; [reflexivity | lia].
  - eapply Forall_impl; [|exact H2]. simpl. intros e [? ?]. split; [assumption | lia].
Qed.

Section Waiting.
Context {A : Type}.
Variables (c : cluster) (node : pystr) (task : taskid).
Variable expired : M unit.

(** The task is finished [n] seconds after the loop is entered and not
    before, and the budget is larger than [n]: the loop returns in second
    [n], having queried the task in that second and in none after. *)
Lemma wait_finishes (a : A) (n : nat) :
  forall (fuel : nat) (t : Z) (w : world),
    n < fuel -> (Z.of_nat n < t)%Z ->
    (forall j, j < n -> finished (task_status c task (now w + j)) = false) ->
    finished (task_status c task (now w + n)) = true ->
    exists evs,
      while_timeout fuel t (poll c node task (ret (Return a)) expired) w
      = (Ret (Some a), {| now := now w + n; trace := trace w ++ evs |})
      /\ session_queries node task (now w) (now w + n) evs.
Proof.
  induction n as [|n IH]; intros fuel t w Hfuel Ht Hbefore Hdone.
  - destruct fuel as [|fuel]; [lia|].
    rewrite while_timeout_step by lia.
    rewrite Nat.add_0_r in *. unfold bind at 1.
    rewrite poll_finished by exact Hdone. unfold ret at 1 2.
    eexists. split; [reflexivity|].
    apply session_queries_pass; [left; reflexivity | repeat constructor].
  - destruct fuel as [|fuel]; [lia|].
    rewrite while_timeout_step by lia.
    assert (H0 : finished (task_status c task (now w)) = false).
    { rewrite <- (Nat.add_0_r (now w)). apply Hbefore. lia. }
    destruct (poll_unfinished c node task (ret (Return a)) expired t w H0)
      as (e1 & Hin & Hall & E).
    unfold bind at 1. rewrite E.
    destruct (Z.eqb_spec (t - 1) 0) as [Hz|Hz]; [lia|].
    unfold bind at 1 2, ret at 1 2, sleep at 1. simpl.
    destruct (IH fuel (t - 1)%Z
                 {| now := now w + 1; trace := trace w ++ e1 |})
      as (e2 & E2 & Q2); simpl.
    + lia.
    + lia.
    + intros j Hj. replace (now w + 1 + j) with (now w + S j) by lia.
      apply Hbefore. lia.
    + replace (now w + 1 + n) with (now w + S n) by lia. exact Hdone.
    + rewrite E2. simpl.
      exists (e1 ++ e2). rewrite app_assoc.
      replace (now w + 1 + n) with (now w + S n) by lia.
      split; [reflexivity|].
      apply session_queries_cons; [exact Hall|].
      replace (S (now w)) with (now w + 1) by lia.
      replace (now w + S n) with (now w + 1 + n) by lia. exact Q2.
Qed.

(** The task is not finished in the first [n + 1] seconds and the budget
    is [n + 1]: the loop reaches its timeout statement in second [n],
    after [n + 1] passes; if that statement returns, the loop sleeps once
    more and is left. *)
Lemma wait_expires (fin : M (loop_ctl A)) (n : nat) :
  forall (fuel : nat) (w : world),
    n < fuel ->
    (forall j, j <= n -> finished (task_status c task (now w + j)) = false) ->
    exists evs,
      while_timeout fuel (Z.of_nat (S n)) (poll c node task fin expired) w
      = bind expired (fun _ => bind (sleep 1) (fun _ => ret None))
             {| now := now w + n; trace := trace w ++ evs |}
      /\ session_queries node task (now w) (now w + n) evs.
Proof.
  induction n as [|n IH]; intros fuel w Hfuel Hnot.
  - destruct fuel as [|fuel]; [lia|].
    rewrite while_timeout_step by lia.
    assert (H0 : finished (task_status c task (now w)) = false).
    { rewrite <- (Nat.add_0_r (now w)). apply Hnot. lia. }
    destruct (poll_unfinished c node task fin expired (Z.of_nat 1) w H0)
      as (e1 & Hin & Hall & E).
    unfold bind at 1. rewrite E. simpl (Z.of_nat 1 - 1 =? 0)%Z. cbv iota.
    rewrite Nat.add_0_r.
    exists e1. split.
    + unfold bind, sleep, ret.
      destruct (expired _) as [[[]|o|e|] w']; simpl; try reflexivity.
      rewrite while_timeout_zero. reflexivity.
    + apply session_queries_pass; assumption.
  - destruct fuel as [|fuel]; [lia|].
    rewrite while_timeout_step by lia.
    assert (H0 : finished (task_status c task (now w)) = false).
    { rewrite <- (Nat.add_0_r (now w)). apply Hnot. lia. }
    destruct (poll_unfinished c node task fin expired
                (Z.of_nat (S (S n))) w H0) as (e1 & Hin & Hall & E).
    unfold bind at 1. rewrite E.
    replace (Z.of_nat (S (S n)) - 1)%Z with (Z.of_nat (S n)) by lia.
    destruct (Z.eqb_spec (Z.of_nat (S n)) 0) as [Hz|Hz]; [lia|].
    unfold bind at 1 2, ret at 1 2, sleep at 1. simpl.
    destruct (IH fuel {| now := now w + 1; trace := trace w ++ e1 |})
      as (e2 & E2 & Q2); simpl.
    + lia.
    + intros j Hj. replace (now w + 1 + j) with (now w + S j) by lia.
      apply Hnot. lia.
    + change (Z.pos (Pos.succ (Pos.of_succ_nat n))) with (Z.of_nat (S (S n))) in *.
      change (Z.pos (Pos.of_succ_nat n)) with (Z.of_nat (S n)) in *.
      rewrite E2. simpl.
      exists (e1 ++ e2). rewrite app_assoc.
      replace (now w + 1 + n) with (now w + S n) by lia.
      split; [reflexivity|].
      apply session_queries_cons; [exact Hall|].
      replace (S (now w)) with (now w + 1) by lia.
      replace (now w + S n) with (now w + 1 + n) by lia. exact Q2.
Qed.

End Waiting.

(** ** Reading the ticks off a trace *)

Lemma skipn_length_app {X : Type} (l l' : list X) :
  skipn (length l) (l ++ l') = l'.
Proof. induction l as [|x l IH]; simpl; [reflexivity | exact IH]. Qed.

Lemma filter_session_queries (node : pystr) (task : taskid) (lo hi : nat)
      (evs : list (nat * call)) :
  Forall (fun e => snd e = TaskStatusGet node task /\ lo <= fst e <= hi) evs ->
  filter (fun e => is_task_status (snd e)) evs = evs.
Proof.
  induction 1 as [|e evs [He _] _ IH]; simpl; [reflexivity|].
  rewrite He. simpl. now rewrite IH.
Qed.

(** A run entered in [w0] that sent, besides requests that are not status
    queries, the queries of a session from second [now w0] to second
    [now w0 + n], polled tick [n + 1] and no later tick. *)
Lemma session_ticks {X : Type} (w0 : world) (r : res X * world)
      (node : pystr) (task : taskid) (n : nat)
      (pre evs post : list (nat * call)) :
  trace (snd r) = trace w0 ++ pre ++ evs ++ post ->
  filter (fun e => is_task_status (snd e)) pre = [] ->
  filter (fun e => is_task_status (snd e)) post = [] ->
  session_queries node task (now w0) (now w0 + n) evs ->
  In (S n) (polled_ticks w0 r)
  /\ Forall (fun j => j <= S n) (polled_ticks w0 r).
Proof.
  intros Ht Hpre Hpost [Hin Hall].
  unfold polled_ticks, since. rewrite Ht, skipn_length_app.
  rewrite !filter_app, Hpre, Hpost, app_nil_r. simpl.
  rewrite (filter_session_queries _ _ _ _ _ Hall). split.
  - apply in_map_iff. exists (now w0 + n, TaskStatusGet node task).
    split; [|exact Hin]. unfold tick_of. simpl. f_equal. lia.
  - apply Forall_map. eapply Forall_impl; [|exact Hall].
    intros e [_ He]. unfold tick_of. lia.
Qed.

(** The hypotheses of the contract, read in seconds. *)
Lemma first_finished_seconds (c : cluster) (task : taskid) (w0 w : world)
      (k : nat) :
  now w = now w0 -> 1 <= k ->
  first_finished_in c task w0 k ->
  (forall j, j < k - 1 ->
             finished (task_status c task (now w + j)) = false)
  /\ finished (task_status c task (now w + (k - 1))) = true.
Proof.
  intros Hw Hk [Hd Hb]. rewrite Hw. split; [|exact Hd].
  intros j Hj. specialize (Hb (S j)). unfold answer_in_tick in Hb.
  replace (S j - 1) with j in Hb by lia. apply Hb. lia.
Qed.

Lemma unfinished_seconds (c : cluster) (task : taskid) (w0 w : world)
      (n : nat) :
  now w = now w0 ->
  unfinished_through c task w0 (S n) ->
  forall j, j <= n -> finished (task_status c task (now w + j)) = false.
Proof.
  intros Hw H j Hj. rewrite Hw. specialize (H (S j)).
  unfold answer_in_tick in H. replace (S j - 1) with j in H by lia.
  apply H. lia.
Qed.

(** ** The pollers *)

(** A polling loop with the reporting timeout statement, entered in a
    world [w] that has sent [pre] since [w0] without sleeping. *)
Lemma reporting_loop_contract (c : cluster) (node : pystr) (task : taskid)
      (what : string) (t : Z) (fuel : nat) (w0 w : world)
      (pre : list (nat * call)) :
  (1 <= t)%Z -> Z.to_nat t <= fuel ->
  now w = now w0 -> trace w = trace w0 ++ pre ->
  filter (fun e => is_task_status (snd e)) pre = [] ->
  poller_contract c task t w0
    (while_timeout fuel t
       (poll c node task (ret (Return true))
             (reached_timeout c what node task)) w)
    (Some true) what.
Proof.
  intros Ht Hfuel Hnow Htr Hpre. split.
  - intros k Hk Hfirst.
    destruct (first_finished_seconds c task w0 w k Hnow (proj1 Hk) Hfirst)
      as [Hb Hd].
    destruct (wait_finishes c node task (reached_timeout c what node task)
                true (k - 1) fuel t w) as (evs & E & Q);
      [lia | lia | exact Hb | exact Hd |].
    rewrite E. simpl.
    split; [reflexivity|]. split; [unfold last_tick, tick_of; simpl; lia|].
    destruct (session_ticks w0
                (Ret (Some true),
                 {| now := now w + (k - 1); trace := trace w ++ evs |})
                node task (k - 1) pre evs []) as [T1 T2].
    + simpl. rewrite Htr, app_nil_r, app_assoc. reflexivity.
    + exact Hpre.
    + reflexivity.
    + rewrite <- Hnow. exact Q.
    + replace (S (k - 1)) with k in T1, T2 by lia. split; assumption.
  - intros Hnot.
    assert (Et : t = Z.of_nat (S (Z.to_nat t - 1))) by lia.
    assert (Hs : S (Z.to_nat t - 1) = Z.to_nat t) by lia.
    rewrite <- Hs in Hnot.
    destruct (wait_expires c node task (reached_timeout c what node task)
                (ret (Return true)) (Z.to_nat t - 1) fuel w) as (evs & E & Q);
      [lia | exact (unfinished_seconds c task w0 w _ Hnow Hnot) |].
    rewrite <- Et in E. rewrite E.
    unfold reached_timeout, task_log_get, bind, send, ret, fail_json. simpl.
    split; [reflexivity|]. split; [unfold last_tick, tick_of; simpl; lia|].
    match goal with
    | |- In _ (polled_ticks w0 ?r) /\ _ =>
        destruct (session_ticks w0 r node task (Z.to_nat t - 1) pre evs
                    [(now w + (Z.to_nat t - 1), TaskLogGet node task)])
          as [T1 T2]
    end.
    + simpl. rewrite Htr, <- !app_assoc. reflexivity.
    + exact Hpre.
    + reflexivity.
    + rewrite <- Hnow. exact Q.
    + rewrite Hs in T1, T2. split; assumption.
Qed.

Lemma create_instance_contract (c : cluster) (w0 : world) (t : Z)
      (fuel : nat) (p : params) :
  (1 <= t)%Z -> Z.to_nat t <= fuel ->
  poller_contract c (create_task c (node p) (kwargs_of p)) t w0
    (create_instance fuel c (vmid p) (node p) (disk p) (storage p) (cpus p)
       (memory p) (swap p) t (password p) (hostname p) (ostemplate p)
       (netif p) (ip_address p) (Z.b2z (onboot p)) (cpuunits p)
       (nameserver p) (searchdomain p) (Z.b2z (force p)) w0)
    (Some true) "creating".
Proof.
  intros Ht Hfuel.
  unfold create_instance. fold (kwargs_of p).
  unfold bind at 1, send at 1.
  apply (reporting_loop_contract c (node p) _ "creating" t fuel w0 _
           [(now w0, CreatePost (node p) (kwargs_of p))]);
    try assumption; reflexivity.
Qed.

Lemma start_instance_contract (c : cluster) (w0 : world) (t : Z)
      (fuel : nat) (v : vm) (rest : list vm) (vmid : Z) :
  (1 <= t)%Z -> Z.to_nat t <= fuel ->
  poller_contract c (start_task c (vm_node v) vmid) t w0
    (start_instance fuel c (v :: rest) vmid t w0) true "starting".
Proof.
  intros Ht Hfuel.
  pose proof (reporting_loop_contract c (Some (vm_node v))
                (start_task c (vm_node v) vmid) "starting" t fuel w0
                {| now := now w0;
                   trace := trace w0 ++ [(now w0, StartPost (vm_node v) vmid)] |}
                [(now w0, StartPost (vm_node v) vmid)]
                Ht Hfuel eq_refl eq_refl eq_refl) as [Hok Hko].
  assert (E : start_instance fuel c (v :: rest) vmid t w0
              = bind (while_timeout fuel t
                        (poll c (Some (vm_node v))
                              (start_task c (vm_node v) vmid)
                              (ret (Return true))
                              (reached_timeout c "starting"
                                 (Some (vm_node v))
                                 (start_task c (vm_node v) vmid))))
                     (fun r => match r with
                               | Some b => ret b
                               | None => ret false
                               end)
                     {| now := now w0;
                        trace := trace w0
                                 ++ [(now w0, StartPost (vm_node v) vmid)] |})
    by reflexivity.
  rewrite E. clear E. unfold bind. split.
  - intros k Hk Hf. specialize (Hok k Hk Hf).
    destruct (while_timeout _ _ _ _) as [[[b|]|o|e|] w1];
      simpl in *; destruct Hok as (H1 & H2 & H3 & H4);
      try discriminate.
    injection H1 as ->. unfold polled_ticks in *. simpl in *. auto.
  - intros Hn. specialize (Hko Hn).
    destruct (while_timeout _ _ _ _) as [[[b|]|o|e|] w1];
      simpl in *; destruct Hko as (H1 & H2 & H3 & H4);
      try discriminate.
    injection H1 as ->. unfold polled_ticks in *. simpl in *. auto.
Qed.

(** C2.  Ticks are the passes of the countdown loop, counted from 1 (see
    [tick_of]).  For every budget [t >= 1] and both for [create_instance]
    and for [start_instance]: if the task is first finished ('stopped'
    with exit status 'OK') in tick [k <= t], the poller returns success
    in tick [k]; if the task is not finished in any tick up to [t], the
    poller fails with the "Reached timeout" error in tick [t]; in both
    cases no status query is made after that tick.  Fuel [t] is enough
    for the loop. *)
Theorem C2_poller_ticks (c : cluster) (w0 : world) (t : Z) (fuel : nat)
        (p : params) (v : vm) (rest : list vm) :
  (1 <= t)%Z -> Z.to_nat t <= fuel ->
  poller_contract c (create_task c (node p) (kwargs_of p)) t w0
    (create_instance fuel c (vmid p) (node p) (disk p) (storage p) (cpus p)
       (memory p) (swap p) t (password p) (hostname p) (ostemplate p)
       (netif p) (ip_address p) (Z.b2z (onboot p)) (cpuunits p)
       (nameserver p) (searchdomain p) (Z.b2z (force p)) w0)
    (Some true) "creating"
  /\ poller_contract c (start_task c (vm_node v) (vmid p)) t w0
       (start_instance fuel c (v :: rest) (vmid p) t w0) true "starting".
Proof.
  intros Ht Hfuel. split.
  - apply create_instance_contract; assumption.
  - apply start_instance_contract; assumption.
Qed.

(** A creation that is finished from second 2 on, polled with budget 30,
    succeeds in tick 3; a start that never finishes, polled with budget
    3, fails in tick 3. *)
Lemma C2_witness :
  (let r := create_instance 30 (lab [] "running" (done_from 2) two_lines)
              100 (Some "uk-mc02") 3 "local" 1 512 0 30 (Some "123456")
              (Some "example.org")
              (Some "local:vztmpl/ubuntu-14.04-x86_64.tar.gz") None None 0
              1000 None None 0 boot in
   fst r = Ret (Some true)
   /\ last_tick boot r = 3
   /\ In 3 (polled_ticks boot r)
   /\ Forall (fun j => j <= 3) (polled_ticks boot r))
  /\ (let r := start_instance 3 (lab [vm100] "stopped" never two_lines)
                 [vm100] 100 3 boot in
      fst r = Exit (FailJson (MsgReachedTimeout "starting" ["starting task"]))
      /\ last_tick boot r = 3
      /\ In 3 (polled_ticks boot r)
      /\ Forall (fun j => j <= 3) (polled_ticks boot r)).
Proof.
  split.
  - destruct (C2_poller_ticks (lab [] "running" (done_from 2) two_lines)
                boot 30 30 (declaration present 30) vm100 [])
      as [[Hok _] _].
    + apply Z.leb_le. reflexivity.
    + apply Nat.leb_le. reflexivity.
    + apply (Hok 3).
      * split; apply Nat.leb_le; reflexivity.
      * split; [reflexivity|].
        intros j [H1 H2].
        destruct j as [|[|[|j]]]; try reflexivity; lia.
  - destruct (C2_poller_ticks (lab [vm100] "stopped" never two_lines)
                boot 3 3 (declaration started 3) vm100 [])
      as [_ [_ Hko]].
    + apply Z.leb_le. reflexivity.
    + apply Nat.leb_le. reflexivity.
    + apply Hko. intros j _. reflexivity.
Defined.

(** ** The 'present' block *)

Lemma present_gate_open (c : cluster) (p : params) :
  observed_status c (vmid p) = None \/ force p = true ->
  nonempty (filter (fun vm => (vm_id vm =? vmid p)%Z) (resources c))
  && negb (force p) = false.
Proof.
  unfold observed_status. intros [H|H].
  - destruct (filter _ (resources c)); [reflexivity | discriminate].
  - rewrite H. apply andb_false_r.
Qed.

(** C7.  State 'present', with no container of that id or with [force]:
    when the named node is not in the cluster, the run fails with "node
    '...' not exists in cluster" after the container and node listings
    alone, whether or not the template is in the storage and whether or
    not hostname, password and ostemplate are supplied. *)
Theorem C7_node_error_comes_first (fuel : nat) (h : host) (c : cluster)
        (p : params) :
  connects h c p = true ->
  state p = present ->
  observed_status c (vmid p) = None \/ force p = true ->
  has_node c (node p) = false ->
  invoke fuel h c p
  = (Exit (FailJson (MsgNodeNotExists (node p))),
     {| now := 0;
        trace := [(0, AccessTicket (api_user p)); (0, ResourcesGet);
                  (0, NodesGet)] |}).
Proof.
  intros Hc Hs Hg Hn. rewrite (main_connected fuel h c p Hc), Hs.
  unfold state_present, try_except, get_instance, node_check.
  unfold bind at 1 2 3. unfold send at 1, ret at 1. simpl.
  rewrite (present_gate_open c p Hg). simpl.
  unfold bind at 1 2, send at 1, ret at 1. simpl.
  rewrite nonempty_map_filter. fold (has_node c (node p)). rewrite Hn.
  reflexivity.
Qed.

(** Node and template both missing: the node is the one reported. *)
Lemma C7_witness :
  invoke 5 workstation bare_cluster (declaration present 30)
  = (Exit (FailJson (MsgNodeNotExists (Some "uk-mc02"))),
     {| now := 0;
        trace := [(0, AccessTicket "root@pam"); (0, ResourcesGet);
                  (0, NodesGet)] |}).
Proof.
  apply (C7_node_error_comes_first 5 workstation bare_cluster
           (declaration present 30)).
  - reflexivity.
  - reflexivity.
  - left. reflexivity.
  - reflexivity.
Defined.

(** C10.  State 'present' with timeout = 0, no container of that id (or
    [force]), the node in the cluster and the template in the storage:
    the create request is sent, no status query of the task is made at
    any time, and the run reports changed=true with "deployed VM ... from
    template ...". *)
Theorem C10_timeout_zero_deploys (fuel : nat) (h : host) (c : cluster)
        (p : params) :
  connects h c p = true ->
  state p = present ->
  timeout p = 0%Z ->
  observed_status c (vmid p) = None \/ force p = true ->
  has_node c (node p) = true ->
  has_template c (node p) (ostemplate p) (storage p) = true ->
  invoke fuel h c p
  = (Exit (ExitJson true (MsgDeployed (vmid p) (ostemplate p))),
     {| now := 0;
        trace := [(0, AccessTicket (api_user p)); (0, ResourcesGet);
                  (0, NodesGet); (0, ContentGet (node p) (storage p));
                  (0, CreatePost (node p) (kwargs_of p))] |})
  /\ existsb is_task_status (calls (invoke fuel h c p)) = false.
Proof.
  intros Hc Hs Ht Hg Hn Hct.
  assert (E : invoke fuel h c p
              = (Exit (ExitJson true (MsgDeployed (vmid p) (ostemplate p))),
                 {| now := 0;
                    trace := [(0, AccessTicket (api_user p));
                              (0, ResourcesGet); (0, NodesGet);
                              (0, ContentGet (node p) (storage p));
                              (0, CreatePost (node p) (kwargs_of p))] |})).
  { rewrite (main_connected fuel h c p Hc), Hs.
    unfold state_present, try_except, get_instance, node_check,
      content_check, create_instance.
    fold (kwargs_of p). rewrite Ht, while_timeout_zero.
    unfold bind at 1 2 3. unfold send at 1, ret at 1. simpl.
    rewrite (present_gate_open c p Hg). simpl.
    unfold bind at 1 2, send at 1, ret at 1. simpl.
    rewrite nonempty_map_filter. fold (has_node c (node p)). rewrite Hn.
    simpl.
    unfold bind at 1 2, send at 1, ret at 1. simpl.
    rewrite nonempty_map_filter.
    fold (has_template c (node p) (ostemplate p) (storage p)). rewrite Hct.
    reflexivity. }
  rewrite E. split; reflexivity.
Qed.

Lemma C10_witness :
  invoke 0 workstation (lab [] "stopped" never two_lines)
         (declaration present 0)
  = (Exit (ExitJson true
             (MsgDeployed 100
                (Some "local:vztmpl/ubuntu-14.04-x86_64.tar.gz"))),
     {| now := 0;
        trace := [(0, AccessTicket "root@pam"); (0, ResourcesGet);
                  (0, NodesGet); (0, ContentGet (Some "uk-mc02") "local");
                  (0, CreatePost (Some "uk-mc02")
                        (kwargs_of (declaration present 0)))] |})
  /\ existsb is_task_status
       (calls (invoke 0 workstation (lab [] "stopped" never two_lines)
                      (declaration present 0))) = false.
Proof.
  apply (C10_timeout_zero_deploys 0 workstation
           (lab [] "stopped" never two_lines) (declaration present 0)).
  - reflexivity.
  - reflexivity.
  - reflexivity.
  - left. reflexivity.
  - reflexivity.
  - reflexivity.
Defined.

(** A running container 100, asked to be started, stopped and removed. *)
Lemma C6_witness :
  (reported (invoke 5 workstation (lab [vm100] "running" never two_lines)
                    (declaration started 5))
   = Some (ExitJson false (MsgAlreadyRunning 100))
   /\ existsb mutating
        (calls (invoke 5 workstation (lab [vm100] "running" never two_lines)
                       (declaration started 5))) = false)
  /\ existsb is_delete
       (calls (invoke 5 workstation (lab [vm100] "running" never two_lines)
                      (declaration stopped 5))) = false
  /\ (reported (invoke 5 workstation (lab [vm100] "running" never two_lines)
                       (declaration absent 5))
      = Some (ExitJson false (MsgRunningStopFirst 100))
      /\ existsb mutating
           (calls (invoke 5 workstation
                          (lab [vm100] "running" never two_lines)
                          (declaration absent 5))) = false).
Proof.
  split; [|split].
  - destruct (C6_running_resource 5 workstation
                (lab [vm100] "running" never two_lines)
                (declaration started 5) eq_refl eq_refl) as (H & _ & _).
    exact (H eq_refl).
  - destruct (C6_running_resource 5 workstation
                (lab [vm100] "running" never two_lines)
                (declaration stopped 5) eq_refl eq_refl) as (_ & H & _).
    exact (H (or_introl eq_refl)).
  - destruct (C6_running_resource 5 workstation
                (lab [vm100] "running" never two_lines)
                (declaration absent 5) eq_refl eq_refl) as (_ & _ & H).
    exact (H eq_refl).
Defined.

(** ** The slips, in general *)

(** Whenever the budget of [stop_instance] runs out, its timeout
    statement raises [NameError] instead of reporting the log. *)
Lemma stop_instance_expiry_raises (c : cluster) (w0 : world) (t : Z)
      (fuel : nat) (v : vm) (rest : list vm) (vmid : Z) (f : bool) :
  (1 <= t)%Z -> Z.to_nat t <= fuel ->
  unfinished_through c (shutdown_task c (vm_node v) vmid f) w0 (Z.to_nat t) ->
  fst (stop_instance fuel c (v :: rest) vmid t f w0)
  = Raise (NameError "proxmox_node").
Proof.
  intros Ht Hfuel Hnot.
  assert (Et : t = Z.of_nat (S (Z.to_nat t - 1))) by lia.
  assert (Hs : S (Z.to_nat t - 1) = Z.to_nat t) by lia.
  rewrite <- Hs in Hnot.
  destruct (wait_expires c (Some (vm_node v))
              (shutdown_task c (vm_node v) vmid f) reached_timeout_unbound
              (ret (Return true)) (Z.to_nat t - 1) fuel
              {| now := now w0;
                 trace := trace w0
                          ++ [(now w0, ShutdownPost (vm_node v) vmid f)] |})
    as (evs & E & _);
    [lia | exact (unfinished_seconds c _ w0 _ _ eq_refl Hnot) |].
  rewrite <- Et in E.
  unfold stop_instance, vm0_node.
  unfold bind at 1 2. unfold ret at 1, send at 1. simpl.
  unfold bind at 1. rewrite E. reflexivity.
Qed.

(** With timeout = 0, a 'started' request on a container that is not
    running sends the start request and reports nothing. *)
Lemma started_timeout_zero_is_silent (fuel : nat) (h : host) (c : cluster)
      (p : params) (st : string) :
  connects h c p = true ->
  state p = started ->
  timeout p = 0%Z ->
  observed_status c (vmid p) = Some st ->
  (st =? "running") = false ->
  reported (invoke fuel h c p) = None
  /\ existsb mutating (calls (invoke fuel h c p)) = true.
Proof.
  intros Hc Hs Ht Ho Hst. rewrite (main_connected fuel h c p Hc), Hs.
  destruct (observed_inv _ _ _ Ho) as (v & rest & Hf & Hcur).
  unfold state_started, start_instance. rewrite Ht.
  unfold try_except, bind, get_instance, current_status, vm0_node, send,
    ret, exit_json, logged_in; simpl.
  rewrite Hf; simpl. rewrite Hcur, Hst; simpl.
  rewrite while_timeout_zero. split; reflexivity.
Qed.

End ProxmoxFacts.

(* ====================================================================== *)
(** * More on proxmox: the pollers *)
(* ====================================================================== *)

Module ProxmoxPollers.
Import Proxmox Fixtures ProxmoxFacts.
Local Open Scope list_scope.

(** The status queries of a session change nothing. *)
Lemma session_queries_read_only (node : pystr) (task : taskid) (lo hi : nat)
      (evs : list (nat * call)) :
  session_queries node task lo hi evs ->
  filter mutating (map snd evs) = [].
Proof.
  intros [_ H]. induction H as [|e evs [He _] _ IH]; simpl; [reflexivity|].
  rewrite He. simpl. exact IH.
Qed.

Lemma first_finished_at_second (c : cluster) (task : taskid) (s0 k : nat) :
  1 <= k ->
  first_finished_in c task {| now := s0; trace := [] |} k ->
  (forall j, j < k - 1 -> finished (task_status c task (s0 + j)) = false)
  /\ finished (task_status c task (s0 + (k - 1))) = true.
Proof.
  intros Hk H.
  exact (first_finished_seconds c task {| now := s0; trace := [] |}
           {| now := s0; trace := [] |} k eq_refl Hk H).
Qed.

(** ** [start_instance], [stop_instance], [umount_instance] *)

Section Lifecycle.
Variables (c : cluster) (v : vm) (rest : list vm) (vmid : Z).

(** The task is first finished [n] seconds after the call and the budget
    is larger than [n]: the function sends its request, polls, and
    returns [True] after [n] sleeps. *)
Lemma start_instance_finishes (n fuel : nat) (t : Z) (w : world) :
  n < fuel -> (Z.of_nat n < t)%Z ->
  (forall j, j < n ->
     finished (task_status c (start_task c (vm_node v) vmid) (now w + j))
     = false) ->
  finished (task_status c (start_task c (vm_node v) vmid) (now w + n))
  = true ->
  exists evs,
    start_instance fuel c (v :: rest) vmid t w
    = (Ret true,
       {| now := now w + n;
          trace := trace w ++ (now w, StartPost (vm_node v) vmid) :: evs |})
    /\ session_queries (Some (vm_node v)) (start_task c (vm_node v) vmid)
                       (now w) (now w + n) evs.
Proof.
  intros Hf Ht Hb Hd.
  destruct (wait_finishes c (Some (vm_node v))
              (start_task c (vm_node v) vmid)
              (reached_timeout c "starting" (Some (vm_node v))
                 (start_task c (vm_node v) vmid))
              true n fuel t
              {| now := now w;
                 trace := trace w ++ [(now w, StartPost (vm_node v) vmid)] |}
              Hf Ht Hb Hd) as (evs & E & Q).
  exists evs. split; [|exact Q].
  unfold start_instance, vm0_node.
  unfold bind at 1 2. unfold ret at 1, send at 1. simpl.
  unfold bind at 1. rewrite E. simpl. rewrite <- app_assoc. reflexivity.
Qed.

Lemma stop_instance_finishes (f : bool) (n fuel : nat) (t : Z) (w : world) :
  n < fuel -> (Z.of_nat n < t)%Z ->
  (forall j, j < n ->
     finished (task_status c (shutdown_task c (vm_node v) vmid f)
                           (now w + j)) = false) ->
  finished (task_status c (shutdown_task c (vm_node v) vmid f) (now w + n))
  = true ->
  exists evs,
    stop_instance fuel c (v :: rest) vmid t f w
    = (Ret true,
       {| now := now w + n;
          trace := trace w
                   ++ (now w, ShutdownPost (vm_node v) vmid f) :: evs |})
    /\ session_queries (Some (vm_node v))
                       (shutdown_task c (vm_node v) vmid f)
                       (now w) (now w + n) evs.
Proof.
  intros Hf Ht Hb Hd.
  destruct (wait_finishes c (Some (vm_node v))
              (shutdown_task c (vm_node v) vmid f)
              reached_timeout_unbound
              true n fuel t
              {| now := now w;
                 trace := trace w
                          ++ [(now w, ShutdownPost (vm_node v) vmid f)] |}
              Hf Ht Hb Hd) as (evs & E & Q).
  exists evs. split; [|exact Q].
  unfold stop_instance, vm0_node.
  unfold bind at 1 2. unfold ret at 1, send at 1. simpl.
  unfold bind at 1. rewrite E. simpl. rewrite <- app_assoc. reflexivity.
Qed.

Lemma umount_instance_finishes (n fuel : nat) (t : Z) (w : world) :
  n < fuel -> (Z.of_nat n < t)%Z ->
  (forall j, j < n ->
     finished (task_status c (umount_task c (vm_node v) vmid) (now w + j))
     = false) ->
  finished (task_status c (umount_task c (vm_node v) vmid) (now w + n))
  = true ->
  exists evs,
    umount_instance fuel c (v :: rest) vmid t w
    = (Ret true,
       {| now := now w + n;
          trace := trace w ++ (now w, UmountPost (vm_node v) vmid) :: evs |})
    /\ session_queries (Some (vm_node v)) (umount_task c (vm_node v) vmid)
                       (now w) (now w + n) evs.
Proof.
  intros Hf Ht Hb Hd.
  destruct (wait_finishes c (Some (vm_node v))
              (umount_task c (vm_node v) vmid)
              reached_timeout_unbound
              true n fuel t
              {| now := now w;
                 trace := trace w ++ [(now w, UmountPost (vm_node v) vmid)] |}
              Hf Ht Hb Hd) as (evs & E & Q).
  exists evs. split; [|exact Q].
  unfold umount_instance, vm0_node.
  unfold bind at 1 2. unfold ret at 1, send at 1. simpl.
  unfold bind at 1. rewrite E. simpl. rewrite <- app_assoc. reflexivity.
Qed.

End Lifecycle.

(** ** [create_instance] and the loop of 'absent' *)

Lemma create_instance_finishes (c : cluster) (p : params) (n fuel : nat)
      (w : world) :
  n < fuel -> (Z.of_nat n < timeout p)%Z ->
  (forall j, j < n ->
     finished (task_status c (create_task c (node p) (kwargs_of p))
                           (now w + j)) = false) ->
  finished (task_status c (create_task c (node p) (kwargs_of p)) (now w + n))
  = true ->
  exists evs,
    create_instance fuel c (vmid p) (node p) (disk p) (storage p) (cpus p)
      (memory p) (swap p) (timeout p) (password p) (hostname p)
      (ostemplate p) (netif p) (ip_address p) (Z.b2z (onboot p))
      (cpuunits p) (nameserver p) (searchdomain p) (Z.b2z (force p)) w
    = (Ret (Some true),
       {| now := now w + n;
          trace := trace w
                   ++ (now w, CreatePost (node p) (kwargs_of p)) :: evs |})
    /\ session_queries (node p) (create_task c (node p) (kwargs_of p))
                       (now w) (now w + n) evs.
Proof.
  intros Hf Ht Hb Hd.
  destruct (wait_finishes c (node p) (create_task c (node p) (kwargs_of p))
              (reached_timeout c "creating" (node p)
                 (create_task c (node p) (kwargs_of p)))
              true n fuel (timeout p)
              {| now := now w;
                 trace := trace w
                          ++ [(now w, CreatePost (node p) (kwargs_of p))] |}
              Hf Ht Hb Hd) as (evs & E & Q).
  exists evs. split; [|exact Q].
  unfold create_instance. fold (kwargs_of p).
  unfold bind at 1, send at 1. rewrite E. simpl. rewrite <- app_assoc.
  reflexivity.
Qed.

(** A loop whose exit is [exit_json], as in the 'absent' block: it leaves
    the process in the second in which the task is first finished. *)
Lemma wait_exits {A : Type} (c : cluster) (node : pystr) (task : taskid)
      (expired : M unit) (ch : bool) (msg : message) (n : nat) :
  forall (fuel : nat) (t : Z) (w : world),
    n < fuel -> (Z.of_nat n < t)%Z ->
    (forall j, j < n -> finished (task_status c task (now w + j)) = false) ->
    finished (task_status c task (now w + n)) = true ->
    exists evs,
      while_timeout fuel t
        (poll c node task (exit_json (A := loop_ctl A) ch msg) expired) w
      = (Exit (ExitJson ch msg),
         {| now := now w + n; trace := trace w ++ evs |})
      /\ session_queries node task (now w) (now w + n) evs.
Proof.
  induction n as [|n IH]; intros fuel t w Hfuel Ht Hbefore Hdone.
  - destruct fuel as [|fuel]; [lia|].
    rewrite while_timeout_step by lia.
    rewrite Nat.add_0_r in *. unfold bind at 1.
    rewrite poll_finished by exact Hdone. unfold exit_json at 1.
    eexists. split; [reflexivity|].
    apply session_queries_pass; [left; reflexivity | repeat constructor].
  - destruct fuel as [|fuel]; [lia|].
    rewrite while_timeout_step by lia.
    assert (H0 : finished (task_status c task (now w)) = false).
    { rewrite <- (Nat.add_0_r (now w)). apply Hbefore. lia. }
    destruct (poll_unfinished c node task
                (exit_json (A := loop_ctl A) ch msg) expired t w H0)
      as (e1 & Hin & Hall & E).
    unfold bind at 1. rewrite E.
    destruct (Z.eqb_spec (t - 1) 0) as [Hz|Hz]; [lia|].
    unfold bind at 1 2, ret at 1 2, sleep at 1. simpl.
    destruct (IH fuel (t - 1)%Z
                 {| now := now w + 1; trace := trace w ++ e1 |})
      as (e2 & E2 & Q2); simpl.
    + lia.
    + lia.
    + intros j Hj. replace (now w + 1 + j) with (now w + S j) by lia.
      apply Hbefore. lia.
    + replace (now w + 1 + n) with (now w + S n) by lia. exact Hdone.
    + rewrite E2. simpl.
      exists (e1 ++ e2). rewrite app_assoc.
      replace (now w + 1 + n) with (now w + S n) by lia.
      split; [reflexivity|].
      apply session_queries_cons; [exact Hall|].
      replace (S (now w)) with (now w + 1) by lia.
      replace (now w + S n) with (now w + 1 + n) by lia. exact Q2.
Qed.

(** ** Budgets that run out *)

Lemma unfinished_at_second (c : cluster) (task : taskid) (s0 n : nat) :
  unfinished_through c task {| now := s0; trace := [] |} (S n) ->
  forall j, j <= n -> finished (task_status c task (s0 + j)) = false.
Proof.
  intros H.
  exact (unfinished_seconds c task {| now := s0; trace := [] |}
           {| now := s0; trace := [] |} n eq_refl H).
Qed.

(** [start_instance] with a budget [t >= 1] that the task outlasts: after
    [t] passes and [t - 1] sleeps it fetches the log and fails with the
    first entry of the log in the message. *)
Lemma start_instance_expires (c : cluster) (v : vm) (rest : list vm)
      (vmid t : Z) (fuel : nat) (w : world) :
  (1 <= t)%Z -> Z.to_nat t <= fuel ->
  (forall j, j <= Z.to_nat t - 1 ->
     finished (task_status c (start_task c (vm_node v) vmid) (now w + j))
     = false) ->
  exists evs,
    start_instance fuel c (v :: rest) vmid t w
    = (Exit (FailJson
               (MsgReachedTimeout "starting"
                  (firstn 1 (task_log c (start_task c (vm_node v) vmid))))),
       {| now := now w + (Z.to_nat t - 1);
          trace := trace w
                   ++ (now w, StartPost (vm_node v) vmid)
                   :: evs
                   ++ [(now w + (Z.to_nat t - 1),
                        TaskLogGet (Some (vm_node v))
                                   (start_task c (vm_node v) vmid))] |})
    /\ session_queries (Some (vm_node v)) (start_task c (vm_node v) vmid)
                       (now w) (now w + (Z.to_nat t - 1)) evs.
Proof.
  intros Ht Hfuel Hnot.
  assert (Et : t = Z.of_nat (S (Z.to_nat t - 1))) by lia.
  destruct (wait_expires c (Some (vm_node v))
              (start_task c (vm_node v) vmid)
              (reached_timeout c "starting" (Some (vm_node v))
                 (start_task c (vm_node v) vmid))
              (ret (Return true)) (Z.to_nat t - 1) fuel
              {| now := now w;
                 trace := trace w ++ [(now w, StartPost (vm_node v) vmid)] |})
    as (evs & E & Q); [lia | exact Hnot |].
  rewrite <- Et in E.
  exists evs. split; [|exact Q].
  unfold start_instance, vm0_node.
  unfold bind at 1 2. unfold ret at 1, send at 1. simpl.
  unfold bind at 1. rewrite E.
  unfold reached_timeout, task_log_get, bind, send, ret, fail_json. simpl.
  rewrite <- !app_assoc. reflexivity.
Qed.

(** [stop_instance] with a budget [t >= 1] that the task outlasts: after
    [t] passes and [t - 1] sleeps its timeout statement raises
    [NameError]; the log is not fetched. *)
Lemma stop_instance_expires (c : cluster) (v : vm) (rest : list vm)
      (vmid t : Z) (f : bool) (fuel : nat) (w : world) :
  (1 <= t)%Z -> Z.to_nat t <= fuel ->
  (forall j, j <= Z.to_nat t - 1 ->
     finished (task_status c (shutdown_task c (vm_node v) vmid f)
                           (now w + j)) = false) ->
  exists evs,
    stop_instance fuel c (v :: rest) vmid t f w
    = (Raise (NameError "proxmox_node"),
       {| now := now w + (Z.to_nat t - 1);
          trace := trace w
                   ++ (now w, ShutdownPost (vm_node v) vmid f) :: evs |})
    /\ session_queries (Some (vm_node v))
                       (shutdown_task c (vm_node v) vmid f)
                       (now w) (now w + (Z.to_nat t - 1)) evs.
Proof.
  intros Ht Hfuel Hnot.
  assert (Et : t = Z.of_nat (S (Z.to_nat t - 1))) by lia.
  destruct (wait_expires c (Some (vm_node v))
              (shutdown_task c (vm_node v) vmid f)
              reached_timeout_unbound
              (ret (Return true)) (Z.to_nat t - 1) fuel
              {| now := now w;
                 trace := trace w
                          ++ [(now w, ShutdownPost (vm_node v) vmid f)] |})
    as (evs & E & Q); [lia | exact Hnot |].
  rewrite <- Et in E.
  exists evs. split; [|exact Q].
  unfold stop_instance, vm0_node.
  unfold bind at 1 2. unfold ret at 1, send at 1. simpl.
  unfold bind at 1. rewrite E.
  unfold reached_timeout_unbound, bind, raise. simpl.
  rewrite <- !app_assoc. reflexivity.
Qed.

End ProxmoxPollers.

(* ====================================================================== *)
(** * More on proxmox: the decisions of [main] *)
(* ====================================================================== *)

Module ProxmoxStates.
Import Proxmox Fixtures ProxmoxFacts ProxmoxPollers.
Local Open Scope list_scope.

Lemma observed_node_some (c : cluster) (vmid : Z) (n : string) :
  observed_node c vmid = Some n ->
  exists v rest,
    filter (fun vm => (vm_id vm =? vmid)%Z) (resources c) = v :: rest
    /\ vm_node v = n.
Proof.
  unfold observed_node.
  destruct (filter _ (resources c)) as [|v rest]; [discriminate|].
  intros H. injection H as H. exists v, rest. split; [reflexivity | exact H].
Qed.

Lemma observed_node_none (c : cluster) (vmid : Z) :
  observed_node c vmid = None ->
  filter (fun vm => (vm_id vm =? vmid)%Z) (resources c) = [].
Proof.
  unfold observed_node.
  destruct (filter _ (resources c)); [reflexivity | discriminate].
Qed.

(** Unfolds the monad in a block up to its pollers, which stay folded. *)
Ltac run_block :=
  unfold try_except, bind, get_instance, node_check, content_check,
    current_status, vm0_node, send, ret, exit_json, fail_json, logged_in;
  simpl.

(** ** Before the session is open *)

(** X7.  When the session cannot be opened the invocation fails, and the
    cluster has received nothing but, at most, the ticket request:
    without [proxmoxer] or without any password nothing is sent at all,
    and a rejected login is reported as an authorization failure. *)
Theorem session_failures (fuel : nat) (h : host) (c : cluster) (p : params) :
  connects h c p = false ->
  (HAS_PROXMOXER h = false ->
   invoke fuel h c p = (Exit (FailJson MsgProxmoxerRequired), boot))
  /\ (HAS_PROXMOXER h = true -> truthy (api_password p) = false ->
      PROXMOX_PASSWORD h = None ->
      invoke fuel h c p = (Exit (FailJson MsgPasswordRequired), boot))
  /\ (HAS_PROXMOXER h = true ->
      (truthy (api_password p) = true \/ PROXMOX_PASSWORD h <> None) ->
      invoke fuel h c p
      = (Exit (FailJson (MsgAuthorizationFailed LoginError)),
         {| now := 0; trace := [(0, AccessTicket (api_user p))] |})).
Proof.
  unfold connects, invoke, main. intros H. split; [|split].
  - intros Hp. rewrite Hp. reflexivity.
  - intros Hp Ht He. rewrite Hp, Ht, He. reflexivity.
  - intros Hp Hw. rewrite Hp in *. simpl in H.
    unfold bind, ret, try_except, ProxmoxAPI, send, fail_json, raise, boot;
      simpl.
    destruct (truthy (api_password p)); simpl.
    + rewrite H. reflexivity.
    + destruct (PROXMOX_PASSWORD h) as [pw|]; simpl.
      * rewrite H. reflexivity.
      * destruct Hw as [Hw|Hw]; [discriminate | contradiction].
Qed.

Lemma session_failures_witness :
  invoke 5 {| HAS_PROXMOXER := false; PROXMOX_PASSWORD := None |}
         bare_cluster (declaration present 30)
  = (Exit (FailJson MsgProxmoxerRequired), boot)
  /\ invoke 5 workstation bare_cluster without_password
     = (Exit (FailJson MsgPasswordRequired), boot)
  /\ invoke 5 workstation closed_cluster (declaration present 30)
     = (Exit (FailJson (MsgAuthorizationFailed LoginError)),
        {| now := 0; trace := [(0, AccessTicket "root@pam")] |}).
Proof.
  split; [|split].
  - destruct (session_failures 5
                {| HAS_PROXMOXER := false; PROXMOX_PASSWORD := None |}
                bare_cluster (declaration present 30) eq_refl)
      as (H & _ & _).
    exact (H eq_refl).
  - destruct (session_failures 5 workstation bare_cluster without_password
                eq_refl) as (_ & H & _).
    exact (H eq_refl eq_refl eq_refl).
  - destruct (session_failures 5 workstation closed_cluster
                (declaration present 30) eq_refl) as (_ & _ & H).
    exact (H eq_refl (or_introl eq_refl)).
Defined.

(** ** State 'present' *)

(** X8.  'present' on an identifier that exists, without [force], is a
    no-op: changed=false, "already exists", after the container listing
    alone. *)
Theorem present_on_existing (fuel : nat) (h : host) (c : cluster)
        (p : params) (n : string) :
  connects h c p = true ->
  state p = present ->
  observed_node c (vmid p) = Some n ->
  force p = false ->
  invoke fuel h c p
  = (Exit (ExitJson false (MsgAlreadyExists (vmid p))),
     {| now := 0;
        trace := [(0, AccessTicket (api_user p)); (0, ResourcesGet)] |}).
Proof.
  intros Hc Hs Ho Hf. rewrite (main_connected fuel h c p Hc), Hs.
  destruct (observed_node_some _ _ _ Ho) as (v & rest & Hl & _).
  unfold state_present. run_block. rewrite Hl, Hf. reflexivity.
Qed.

Lemma present_on_existing_witness :
  invoke 5 workstation (lab [vm100] "running" never two_lines)
         (declaration present 30)
  = (Exit (ExitJson false (MsgAlreadyExists 100)),
     {| now := 0;
        trace := [(0, AccessTicket "root@pam"); (0, ResourcesGet)] |}).
Proof.
  apply (present_on_existing 5 workstation
           (lab [vm100] "running" never two_lines) (declaration present 30)
           "uk-mc02"); reflexivity.
Defined.

(** X9.  'present' with the gate open and the node in the cluster, but
    the template not in the storage: the invocation fails with
    "ostemplate ... not exists on node ... and storage ...", and no
    create request is sent. *)
Theorem present_without_template (fuel : nat) (h : host) (c : cluster)
        (p : params) :
  connects h c p = true ->
  state p = present ->
  observed_status c (vmid p) = None \/ force p = true ->
  has_node c (node p) = true ->
  has_template c (node p) (ostemplate p) (storage p) = false ->
  invoke fuel h c p
  = (Exit (FailJson (MsgTemplateNotExists (ostemplate p) (node p)
                                          (storage p))),
     {| now := 0;
        trace := [(0, AccessTicket (api_user p)); (0, ResourcesGet);
                  (0, NodesGet); (0, ContentGet (node p) (storage p))] |}).
Proof.
  intros Hc Hs Hg Hn Ht. rewrite (main_connected fuel h c p Hc), Hs.
  unfold state_present, try_except, get_instance, node_check, content_check.
  unfold bind at 1 2 3. unfold send at 1, ret at 1. simpl.
  rewrite (present_gate_open c p Hg). simpl.
  unfold bind at 1 2, send at 1, ret at 1. simpl.
  rewrite nonempty_map_filter. fold (has_node c (node p)). rewrite Hn.
  simpl.
  unfold bind at 1 2, send at 1, ret at 1. simpl.
  rewrite nonempty_map_filter.
  fold (has_template c (node p) (ostemplate p) (storage p)). rewrite Ht.
  reflexivity.
Qed.

Lemma present_without_template_witness :
  invoke 5 workstation cluster_without_template (declaration present 30)
  = (Exit (FailJson
             (MsgTemplateNotExists
                (Some "local:vztmpl/ubuntu-14.04-x86_64.tar.gz")
                (Some "uk-mc02") "local")),
     {| now := 0;
        trace := [(0, AccessTicket "root@pam"); (0, ResourcesGet);
                  (0, NodesGet);
                  (0, ContentGet (Some "uk-mc02") "local")] |}).
Proof.
  apply (present_without_template 5 workstation cluster_without_template
           (declaration present 30)).
  - reflexivity.
  - reflexivity.
  - left. reflexivity.
  - reflexivity.
  - reflexivity.
Defined.

(** ** No container with the identifier *)

(** X10.  'absent' on an identifier that no container has is a no-op:
    changed=false, "does not exist", after the container listing alone. *)
Theorem absent_on_missing (fuel : nat) (h : host) (c : cluster)
        (p : params) :
  connects h c p = true ->
  state p = absent ->
  observed_node c (vmid p) = None ->
  invoke fuel h c p
  = (Exit (ExitJson false (MsgNotExist (vmid p))),
     {| now := 0;
        trace := [(0, AccessTicket (api_user p)); (0, ResourcesGet)] |}).
Proof.
  intros Hc Hs Ho. rewrite (main_connected fuel h c p Hc), Hs.
  unfold state_absent. run_block.
  rewrite (observed_node_none _ _ Ho). reflexivity.
Qed.

Lemma absent_on_missing_witness :
  invoke 5 workstation (lab [] "running" never two_lines)
         (declaration absent 30)
  = (Exit (ExitJson false (MsgNotExist 100)),
     {| now := 0;
        trace := [(0, AccessTicket "root@pam"); (0, ResourcesGet)] |}).
Proof.
  apply (absent_on_missing 5 workstation (lab [] "running" never two_lines)
           (declaration absent 30)); reflexivity.
Defined.

(** X11.  'started', 'stopped' and 'restarted' on an identifier that no
    container has fail with "VM with vmid = ... not exists in cluster",
    after the container listing alone. *)
Theorem lifecycle_on_missing (fuel : nat) (h : host) (c : cluster)
        (p : params) :
  connects h c p = true ->
  state p = started \/ state p = stopped \/ state p = restarted ->
  observed_node c (vmid p) = None ->
  invoke fuel h c p
  = (Exit (FailJson (MsgNotInCluster (vmid p))),
     {| now := 0;
        trace := [(0, AccessTicket (api_user p)); (0, ResourcesGet)] |}).
Proof.
  intros Hc Hs Ho. rewrite (main_connected fuel h c p Hc).
  pose proof (observed_node_none _ _ Ho) as Hl.
  destruct Hs as [Hs|[Hs|Hs]]; rewrite Hs.
  - unfold state_started. run_block. rewrite Hl. reflexivity.
  - unfold state_stopped. run_block. rewrite Hl. reflexivity.
  - unfold state_restarted. run_block. rewrite Hl. reflexivity.
Qed.

Lemma lifecycle_on_missing_witness :
  invoke 5 workstation (lab [] "running" never two_lines)
         (declaration restarted 30)
  = (Exit (FailJson (MsgNotInCluster 100)),
     {| now := 0;
        trace := [(0, AccessTicket "root@pam"); (0, ResourcesGet)] |}).
Proof.
  apply (lifecycle_on_missing 5 workstation
           (lab [] "running" never two_lines) (declaration restarted 30)).
  - reflexivity.
  - right. right. reflexivity.
  - reflexivity.
Defined.

(** ** The rows of the decision table that change nothing *)

(** X12.  'stopped' on a container whose status is 'stopped' reports
    changed=false "already shutdown"; on a container whose status is
    'mounted', without [force], it reports changed=false with the hint to
    use force.  Neither sends a mutating request. *)
Theorem stopped_on_halted (fuel : nat) (h : host) (c : cluster)
        (p : params) (n : string) :
  connects h c p = true ->
  state p = stopped ->
  observed_node c (vmid p) = Some n ->
  (current c n (vmid p) = "stopped" ->
   invoke fuel h c p
   = (Exit (ExitJson false (MsgAlreadyShutdown (vmid p))),
      {| now := 0;
         trace := [(0, AccessTicket (api_user p)); (0, ResourcesGet);
                   (0, CurrentGet n (vmid p));
                   (0, CurrentGet n (vmid p))] |}))
  /\ (current c n (vmid p) = "mounted" -> force p = false ->
      invoke fuel h c p
      = (Exit (ExitJson false (MsgShutdownButMounted (vmid p))),
         {| now := 0;
            trace := [(0, AccessTicket (api_user p)); (0, ResourcesGet);
                      (0, CurrentGet n (vmid p))] |})).
Proof.
  intros Hc Hs Ho. rewrite (main_connected fuel h c p Hc), Hs.
  destruct (observed_node_some _ _ _ Ho) as (v & rest & Hl & Hn).
  subst n. split.
  - intros Hst. unfold state_stopped. run_block. rewrite Hl. simpl.
    rewrite Hst. reflexivity.
  - intros Hst Hf. unfold state_stopped. run_block. rewrite Hl. simpl.
    rewrite Hst, Hf. reflexivity.
Qed.

Lemma stopped_on_halted_witness :
  invoke 5 workstation (lab [vm100] "stopped" never two_lines)
         (declaration stopped 30)
  = (Exit (ExitJson false (MsgAlreadyShutdown 100)),
     {| now := 0;
        trace := [(0, AccessTicket "root@pam"); (0, ResourcesGet);
                  (0, CurrentGet "uk-mc02" 100);
                  (0, CurrentGet "uk-mc02" 100)] |})
  /\ invoke 5 workstation (lab [vm100] "mounted" never two_lines)
            (declaration stopped 30)
     = (Exit (ExitJson false (MsgShutdownButMounted 100)),
        {| now := 0;
           trace := [(0, AccessTicket "root@pam"); (0, ResourcesGet);
                     (0, CurrentGet "uk-mc02" 100)] |}).
Proof.
  split.
  - destruct (stopped_on_halted 5 workstation
                (lab [vm100] "stopped" never two_lines)
                (declaration stopped 30) "uk-mc02" eq_refl eq_refl eq_refl)
      as [H _].
    exact (H eq_refl).
  - destruct (stopped_on_halted 5 workstation
                (lab [vm100] "mounted" never two_lines)
                (declaration stopped 30) "uk-mc02" eq_refl eq_refl eq_refl)
      as [_ H].
    exact (H eq_refl eq_refl).
Defined.

(** X13.  'restarted' on a container whose status is 'stopped' or
    'mounted' reports changed=false "is not running" and sends no
    mutating request, with or without [force]. *)
Theorem restarted_on_halted (fuel : nat) (h : host) (c : cluster)
        (p : params) (n : string) :
  connects h c p = true ->
  state p = restarted ->
  observed_node c (vmid p) = Some n ->
  current c n (vmid p) = "stopped" \/ current c n (vmid p) = "mounted" ->
  reported (invoke fuel h c p) = Some (ExitJson false (MsgNotRunning (vmid p)))
  /\ existsb mutating (calls (invoke fuel h c p)) = false.
Proof.
  intros Hc Hs Ho Hst. rewrite (main_connected fuel h c p Hc), Hs.
  destruct (observed_node_some _ _ _ Ho) as (v & rest & Hl & Hn).
  subst n. unfold state_restarted. run_block. rewrite Hl. simpl.
  destruct Hst as [Hst|Hst]; rewrite Hst; simpl; split; reflexivity.
Qed.

Lemma restarted_on_halted_witness :
  reported (invoke 5 workstation (lab [vm100] "mounted" never two_lines)
                   (forced restarted 30))
  = Some (ExitJson false (MsgNotRunning 100))
  /\ existsb mutating
       (calls (invoke 5 workstation (lab [vm100] "mounted" never two_lines)
                      (forced restarted 30))) = false.
Proof.
  apply (restarted_on_halted 5 workstation
           (lab [vm100] "mounted" never two_lines) (forced restarted 30)
           "uk-mc02").
  - reflexivity.
  - reflexivity.
  - reflexivity.
  - right. reflexivity.
Defined.

(** X14.  'absent' on a container whose status is 'mounted' reports
    changed=false "is mounted. Stop it with force option before
    deletion." and sends neither a delete nor any other mutating
    request, even when [force] is set. *)
Theorem absent_on_mounted (fuel : nat) (h : host) (c : cluster)
        (p : params) (n : string) :
  connects h c p = true ->
  state p = absent ->
  observed_node c (vmid p) = Some n ->
  current c n (vmid p) = "mounted" ->
  invoke fuel h c p
  = (Exit (ExitJson false (MsgMountedForceStopFirst (vmid p))),
     {| now := 0;
        trace := [(0, AccessTicket (api_user p)); (0, ResourcesGet);
                  (0, CurrentGet n (vmid p));
                  (0, CurrentGet n (vmid p))] |}).
Proof.
  intros Hc Hs Ho Hst. rewrite (main_connected fuel h c p Hc), Hs.
  destruct (observed_node_some _ _ _ Ho) as (v & rest & Hl & Hn).
  subst n. unfold state_absent. run_block. rewrite Hl. simpl.
  rewrite Hst. reflexivity.
Qed.

Lemma absent_on_mounted_witness :
  invoke 5 workstation (lab [vm100] "mounted" never two_lines)
         (forced absent 30)
  = (Exit (ExitJson false (MsgMountedForceStopFirst 100)),
     {| now := 0;
        trace := [(0, AccessTicket "root@pam"); (0, ResourcesGet);
                  (0, CurrentGet "uk-mc02" 100);
                  (0, CurrentGet "uk-mc02" 100)] |}).
Proof.
  apply (absent_on_mounted 5 workstation
           (lab [vm100] "mounted" never two_lines) (forced absent 30)
           "uk-mc02"); reflexivity.
Defined.

(** ** The rows of the decision table that act *)

(** X15.  'started' on a container that is not running, with a budget of
    at least [k] in which the start task is first finished in tick [k]:
    the start request is the only mutating request, the run reports
    changed=true "started", and it has slept [k - 1] seconds. *)
Theorem started_succeeds (fuel : nat) (h : host) (c : cluster)
        (p : params) (n : string) (k : nat) :
  connects h c p = true ->
  state p = started ->
  observed_node c (vmid p) = Some n ->
  (current c n (vmid p) =? "running") = false ->
  1 <= k <= Z.to_nat (timeout p) ->
  Z.to_nat (timeout p) <= fuel ->
  first_finished_in c (start_task c n (vmid p)) boot k ->
  reported (invoke fuel h c p) = Some (ExitJson true (MsgStarted (vmid p)))
  /\ filter mutating (calls (invoke fuel h c p)) = [StartPost n (vmid p)]
  /\ now (snd (invoke fuel h c p)) = k - 1.
Proof.
  intros Hc Hs Ho Hst Hk Hfuel Hfin.
  rewrite (main_connected fuel h c p Hc), Hs.
  destruct (observed_node_some _ _ _ Ho) as (v & rest & Hl & Hn). subst n.
  destruct (first_finished_at_second c _ 0 k (proj1 Hk) Hfin) as [Hb Hd].
  destruct (start_instance_finishes c v rest (vmid p) (k - 1) fuel
              (timeout p)
              {| now := 0;
                 trace := [(0, AccessTicket (api_user p)); (0, ResourcesGet);
                           (0, CurrentGet (vm_node v) (vmid p))] |})
    as (evs & E & Q); [lia | lia | exact Hb | exact Hd |].
  simpl in E.
  unfold state_started. run_block. rewrite Hl. simpl. rewrite Hst.
  rewrite E. unfold calls. simpl.
  split; [reflexivity|]. split; [|reflexivity].
  rewrite (session_queries_read_only _ _ _ _ _ Q). reflexivity.
Qed.

Lemma started_succeeds_witness :
  reported (invoke 30 workstation (lab [vm100] "stopped" (done_from 2) [])
                   (declaration started 30))
  = Some (ExitJson true (MsgStarted 100))
  /\ filter mutating
       (calls (invoke 30 workstation (lab [vm100] "stopped" (done_from 2) [])
                      (declaration started 30)))
     = [StartPost "uk-mc02" 100]
  /\ now (snd (invoke 30 workstation
                      (lab [vm100] "stopped" (done_from 2) [])
                      (declaration started 30))) = 3 - 1.
Proof.
  apply (started_succeeds 30 workstation
           (lab [vm100] "stopped" (done_from 2) []) (declaration started 30)
           "uk-mc02" 3).
  - reflexivity.
  - reflexivity.
  - reflexivity.
  - reflexivity.
  - simpl. lia.
  - simpl. lia.
  - split; [reflexivity|].
    intros j Hj. destruct j as [|[|[|j]]]; try reflexivity; lia.
Defined.

(** X16.  'stopped' on a container whose status is neither 'mounted' nor
    'stopped', with the shutdown task first finished in tick [k] of the
    budget: one shutdown request is sent, with [forceStop] exactly when
    [force] is set, and the run reports changed=true "shutting down". *)
Theorem stopped_succeeds (fuel : nat) (h : host) (c : cluster)
        (p : params) (n : string) (k : nat) :
  connects h c p = true ->
  state p = stopped ->
  observed_node c (vmid p) = Some n ->
  (current c n (vmid p) =? "mounted") = false ->
  (current c n (vmid p) =? "stopped") = false ->
  1 <= k <= Z.to_nat (timeout p) ->
  Z.to_nat (timeout p) <= fuel ->
  first_finished_in c (shutdown_task c n (vmid p) (force p)) boot k ->
  reported (invoke fuel h c p)
  = Some (ExitJson true (MsgShuttingDown (vmid p)))
  /\ filter mutating (calls (invoke fuel h c p))
     = [ShutdownPost n (vmid p) (force p)]
  /\ now (snd (invoke fuel h c p)) = k - 1.
Proof.
  intros Hc Hs Ho Hm Hst Hk Hfuel Hfin.
  rewrite (main_connected fuel h c p Hc), Hs.
  destruct (observed_node_some _ _ _ Ho) as (v & rest & Hl & Hn). subst n.
  destruct (first_finished_at_second c _ 0 k (proj1 Hk) Hfin) as [Hb Hd].
  destruct (stop_instance_finishes c v rest (vmid p) (force p) (k - 1) fuel
              (timeout p)
              {| now := 0;
                 trace := [(0, AccessTicket (api_user p)); (0, ResourcesGet);
                           (0, CurrentGet (vm_node v) (vmid p));
                           (0, CurrentGet (vm_node v) (vmid p))] |})
    as (evs & E & Q); [lia | lia | exact Hb | exact Hd |].
  simpl in E.
  unfold state_stopped. run_block. rewrite Hl. simpl. rewrite Hm. simpl.
  rewrite Hst. rewrite E. unfold calls. simpl.
  split; [reflexivity|]. split; [|reflexivity].
  rewrite (session_queries_read_only _ _ _ _ _ Q). reflexivity.
Qed.

Lemma stopped_succeeds_witness :
  reported (invoke 30 workstation (lab [vm100] "running" (done_from 1) [])
                   (forced stopped 30))
  = Some (ExitJson true (MsgShuttingDown 100))
  /\ filter mutating
       (calls (invoke 30 workstation (lab [vm100] "running" (done_from 1) [])
                      (forced stopped 30)))
     = [ShutdownPost "uk-mc02" 100 true]
  /\ now (snd (invoke 30 workstation
                      (lab [vm100] "running" (done_from 1) [])
                      (forced stopped 30))) = 2 - 1.
Proof.
  apply (stopped_succeeds 30 workstation
           (lab [vm100] "running" (done_from 1) []) (forced stopped 30)
           "uk-mc02" 2).
  - reflexivity.
  - reflexivity.
  - reflexivity.
  - reflexivity.
  - reflexivity.
  - simpl. lia.
  - simpl. lia.
  - split; [reflexivity|].
    intros j Hj. destruct j as [|[|j]]; try reflexivity; lia.
Defined.

(** X17.  'stopped' with [force] on a container whose status is
    'mounted', with the unmount task first finished in tick [k] of the
    budget: the unmount request is the only mutating request (no
    shutdown is sent) and the run reports changed=true "shutting down". *)
Theorem stopped_unmounts (fuel : nat) (h : host) (c : cluster)
        (p : params) (n : string) (k : nat) :
  connects h c p = true ->
  state p = stopped ->
  observed_node c (vmid p) = Some n ->
  current c n (vmid p) = "mounted" ->
  force p = true ->
  1 <= k <= Z.to_nat (timeout p) ->
  Z.to_nat (timeout p) <= fuel ->
  first_finished_in c (umount_task c n (vmid p)) boot k ->
  reported (invoke fuel h c p)
  = Some (ExitJson true (MsgShuttingDown (vmid p)))
  /\ filter mutating (calls (invoke fuel h c p)) = [UmountPost n (vmid p)]
  /\ now (snd (invoke fuel h c p)) = k - 1.
Proof.
  intros Hc Hs Ho Hm Hf Hk Hfuel Hfin.
  rewrite (main_connected fuel h c p Hc), Hs.
  destruct (observed_node_some _ _ _ Ho) as (v & rest & Hl & Hn). subst n.
  destruct (first_finished_at_second c _ 0 k (proj1 Hk) Hfin) as [Hb Hd].
  destruct (umount_instance_finishes c v rest (vmid p) (k - 1) fuel
              (timeout p)
              {| now := 0;
                 trace := [(0, AccessTicket (api_user p)); (0, ResourcesGet);
                           (0, CurrentGet (vm_node v) (vmid p))] |})
    as (evs & E & Q); [lia | lia | exact Hb | exact Hd |].
  simpl in E.
  unfold state_stopped. run_block. rewrite Hl. simpl. rewrite Hm, Hf. simpl.
  rewrite E. unfold calls. simpl.
  split; [reflexivity|]. split; [|reflexivity].
  rewrite (session_queries_read_only _ _ _ _ _ Q). reflexivity.
Qed.

Lemma stopped_unmounts_witness :
  reported (invoke 30 workstation (lab [vm100] "mounted" (done_from 0) [])
                   (forced stopped 30))
  = Some (ExitJson true (MsgShuttingDown 100))
  /\ filter mutating
       (calls (invoke 30 workstation (lab [vm100] "mounted" (done_from 0) [])
                      (forced stopped 30)))
     = [UmountPost "uk-mc02" 100]
  /\ now (snd (invoke 30 workstation
                      (lab [vm100] "mounted" (done_from 0) [])
                      (forced stopped 30))) = 1 - 1.
Proof.
  apply (stopped_unmounts 30 workstation
           (lab [vm100] "mounted" (done_from 0) []) (forced stopped 30)
           "uk-mc02" 1).
  - reflexivity.
  - reflexivity.
  - reflexivity.
  - reflexivity.
  - reflexivity.
  - simpl. lia.
  - simpl. lia.
  - split; [reflexivity|]. intros j Hj. lia.
Defined.

(** X18.  'restarted' on a container whose status is neither 'stopped'
    nor 'mounted': when the shutdown task is first finished in tick [k1]
    of its session and the start task in tick [k2] of the session that
    begins then, each within the budget, the shutdown request and then
    the start request are sent, the run reports changed=true "is
    restarted", and it has slept [(k1 - 1) + (k2 - 1)] seconds: each of
    the two sessions has the whole budget. *)
Theorem restarted_succeeds (fuel : nat) (h : host) (c : cluster)
        (p : params) (n : string) (k1 k2 : nat) :
  connects h c p = true ->
  state p = restarted ->
  observed_node c (vmid p) = Some n ->
  (current c n (vmid p) =? "stopped") = false ->
  (current c n (vmid p) =? "mounted") = false ->
  1 <= k1 <= Z.to_nat (timeout p) ->
  1 <= k2 <= Z.to_nat (timeout p) ->
  Z.to_nat (timeout p) <= fuel ->
  first_finished_in c (shutdown_task c n (vmid p) (force p)) boot k1 ->
  first_finished_in c (start_task c n (vmid p))
                    {| now := k1 - 1; trace := [] |} k2 ->
  reported (invoke fuel h c p)
  = Some (ExitJson true (MsgRestarted (vmid p)))
  /\ filter mutating (calls (invoke fuel h c p))
     = [ShutdownPost n (vmid p) (force p); StartPost n (vmid p)]
  /\ now (snd (invoke fuel h c p)) = (k1 - 1) + (k2 - 1).
Proof.
  intros Hc Hs Ho Hst Hm Hk1 Hk2 Hfuel Hfin1 Hfin2.
  rewrite (main_connected fuel h c p Hc), Hs.
  destruct (observed_node_some _ _ _ Ho) as (v & rest & Hl & Hn). subst n.
  destruct (first_finished_at_second c _ 0 k1 (proj1 Hk1) Hfin1)
    as [Hb1 Hd1].
  destruct (first_finished_at_second c _ (k1 - 1) k2 (proj1 Hk2) Hfin2)
    as [Hb2 Hd2].
  destruct (stop_instance_finishes c v rest (vmid p) (force p) (k1 - 1) fuel
              (timeout p)
              {| now := 0;
                 trace := [(0, AccessTicket (api_user p)); (0, ResourcesGet);
                           (0, CurrentGet (vm_node v) (vmid p));
                           (0, CurrentGet (vm_node v) (vmid p))] |})
    as (e1 & E1 & Q1); [lia | lia | exact Hb1 | exact Hd1 |].
  simpl in E1.
  destruct (start_instance_finishes c v rest (vmid p) (k2 - 1) fuel
              (timeout p)
              {| now := k1 - 1;
                 trace := (0, AccessTicket (api_user p))
                          :: (0, ResourcesGet)
                          :: (0, CurrentGet (vm_node v) (vmid p))
                          :: (0, CurrentGet (vm_node v) (vmid p))
                          :: (0, ShutdownPost (vm_node v) (vmid p) (force p))
                          :: e1 |})
    as (e2 & E2 & Q2); [lia | lia | exact Hb2 | exact Hd2 |].
  simpl in E2.
  unfold state_restarted. run_block. rewrite Hl. simpl. rewrite Hst. simpl.
  rewrite Hm. rewrite E1. rewrite E2. unfold calls. simpl.
  split; [reflexivity|]. split; [|reflexivity].
  rewrite map_app, filter_app. simpl.
  rewrite (session_queries_read_only _ _ _ _ _ Q1),
    (session_queries_read_only _ _ _ _ _ Q2).
  reflexivity.
Qed.

Lemma restarted_succeeds_witness :
  reported (invoke 30 workstation (lab [vm100] "running" (done_from 1) [])
                   (declaration restarted 30))
  = Some (ExitJson true (MsgRestarted 100))
  /\ filter mutating
       (calls (invoke 30 workstation (lab [vm100] "running" (done_from 1) [])
                      (declaration restarted 30)))
     = [ShutdownPost "uk-mc02" 100 false; StartPost "uk-mc02" 100]
  /\ now (snd (invoke 30 workstation
                      (lab [vm100] "running" (done_from 1) [])
                      (declaration restarted 30))) = (2 - 1) + (1 - 1).
Proof.
  apply (restarted_succeeds 30 workstation
           (lab [vm100] "running" (done_from 1) [])
           (declaration restarted 30) "uk-mc02" 2 1).
  - reflexivity.
  - reflexivity.
  - reflexivity.
  - reflexivity.
  - reflexivity.
  - simpl. lia.
  - simpl. lia.
  - simpl. lia.
  - split; [reflexivity|].
    intros j Hj. destruct j as [|[|j]]; try reflexivity; lia.
  - split; [reflexivity|]. intros j Hj. lia.
Defined.

(** X19.  'absent' on a container whose status is neither 'running' nor
    'mounted', with the delete task first finished in tick [k] of the
    budget: the delete request is the only mutating request and the run
    reports changed=true "removed". *)
Theorem absent_succeeds (fuel : nat) (h : host) (c : cluster)
        (p : params) (n : string) (k : nat) :
  connects h c p = true ->
  state p = absent ->
  observed_node c (vmid p) = Some n ->
  (current c n (vmid p) =? "running") = false ->
  (current c n (vmid p) =? "mounted") = false ->
  1 <= k <= Z.to_nat (timeout p) ->
  Z.to_nat (timeout p) <= fuel ->
  first_finished_in c (delete_task c n (vmid p)) boot k ->
  reported (invoke fuel h c p) = Some (ExitJson true (MsgRemoved (vmid p)))
  /\ filter mutating (calls (invoke fuel h c p)) = [DeleteVM n (vmid p)]
  /\ now (snd (invoke fuel h c p)) = k - 1.
Proof.
  intros Hc Hs Ho Hr Hm Hk Hfuel Hfin.
  rewrite (main_connected fuel h c p Hc), Hs.
  destruct (observed_node_some _ _ _ Ho) as (v & rest & Hl & Hn). subst n.
  destruct (first_finished_at_second c _ 0 k (proj1 Hk) Hfin) as [Hb Hd].
  destruct (wait_exits (A := unit) c (Some (vm_node v))
              (delete_task c (vm_node v) (vmid p)) reached_timeout_unbound
              true (MsgRemoved (vmid p)) (k - 1) fuel (timeout p)
              {| now := 0;
                 trace := [(0, AccessTicket (api_user p)); (0, ResourcesGet);
                           (0, CurrentGet (vm_node v) (vmid p));
                           (0, CurrentGet (vm_node v) (vmid p));
                           (0, DeleteVM (vm_node v) (vmid p))] |})
    as (evs & E & Q); [lia | lia | exact Hb | exact Hd |].
  simpl in E.
  unfold state_absent. run_block. rewrite Hl. simpl. rewrite Hr. simpl.
  rewrite Hm. simpl. unfold exit_json in E. rewrite E. unfold calls. simpl.
  split; [reflexivity|]. split; [|reflexivity].
  rewrite (session_queries_read_only _ _ _ _ _ Q). reflexivity.
Qed.

Lemma absent_succeeds_witness :
  reported (invoke 30 workstation (lab [vm100] "stopped" (done_from 1) [])
                   (declaration absent 30))
  = Some (ExitJson true (MsgRemoved 100))
  /\ filter mutating
       (calls (invoke 30 workstation (lab [vm100] "stopped" (done_from 1) [])
                      (declaration absent 30)))
     = [DeleteVM "uk-mc02" 100]
  /\ now (snd (invoke 30 workstation
                      (lab [vm100] "stopped" (done_from 1) [])
                      (declaration absent 30))) = 2 - 1.
Proof.
  apply (absent_succeeds 30 workstation
           (lab [vm100] "stopped" (done_from 1) []) (declaration absent 30)
           "uk-mc02" 2).
  - reflexivity.
  - reflexivity.
  - reflexivity.
  - reflexivity.
  - reflexivity.
  - simpl. lia.
  - simpl. lia.
  - split; [reflexivity|].
    intros j Hj. destruct j as [|[|j]]; try reflexivity; lia.
Defined.

(** X20.  'present' with the gate open, the node in the cluster and the
    template in the storage, with the create task first finished in tick
    [k] of the budget: one create request is sent, carrying every
    declared attribute ([kwargs_of]), and the run reports changed=true
    "deployed VM ... from template ...". *)
Theorem present_succeeds (fuel : nat) (h : host) (c : cluster)
        (p : params) (k : nat) :
  connects h c p = true ->
  state p = present ->
  observed_status c (vmid p) = None \/ force p = true ->
  has_node c (node p) = true ->
  has_template c (node p) (ostemplate p) (storage p) = true ->
  1 <= k <= Z.to_nat (timeout p) ->
  Z.to_nat (timeout p) <= fuel ->
  first_finished_in c (create_task c (node p) (kwargs_of p)) boot k ->
  reported (invoke fuel h c p)
  = Some (ExitJson true (MsgDeployed (vmid p) (ostemplate p)))
  /\ filter mutating (calls (invoke fuel h c p))
     = [CreatePost (node p) (kwargs_of p)]
  /\ now (snd (invoke fuel h c p)) = k - 1.
Proof.
  intros Hc Hs Hg Hn Ht Hk Hfuel Hfin.
  rewrite (main_connected fuel h c p Hc), Hs.
  destruct (first_finished_at_second c _ 0 k (proj1 Hk) Hfin) as [Hb Hd].
  destruct (create_instance_finishes c p (k - 1) fuel
              {| now := 0;
                 trace := [(0, AccessTicket (api_user p)); (0, ResourcesGet);
                           (0, NodesGet);
                           (0, ContentGet (node p) (storage p))] |})
    as (evs & E & Q); [lia | lia | exact Hb | exact Hd |].
  simpl in E.
  assert (R : state_present fuel c p (logged_in p)
              = (Exit (ExitJson true (MsgDeployed (vmid p) (ostemplate p))),
                 {| now := k - 1;
                    trace := (0, AccessTicket (api_user p))
                             :: (0, ResourcesGet) :: (0, NodesGet)
                             :: (0, ContentGet (node p) (storage p))
                             :: (0, CreatePost (node p) (kwargs_of p))
                             :: evs |})).
  { unfold state_present, try_except, get_instance, node_check,
      content_check.
    unfold bind at 1 2 3. unfold send at 1, ret at 1. simpl.
    rewrite (present_gate_open c p Hg). simpl.
    unfold bind at 1 2, send at 1, ret at 1. simpl.
    rewrite nonempty_map_filter. fold (has_node c (node p)). rewrite Hn.
    simpl.
    unfold bind at 1 2, send at 1, ret at 1. simpl.
    rewrite nonempty_map_filter.
    fold (has_template c (node p) (ostemplate p) (storage p)). rewrite Ht.
    simpl. unfold bind at 1. rewrite E. reflexivity. }
  rewrite R. unfold calls. simpl.
  split; [reflexivity|]. split; [|reflexivity].
  rewrite (session_queries_read_only _ _ _ _ _ Q). reflexivity.
Qed.

Lemma present_succeeds_witness :
  reported (invoke 30 workstation (lab [] "stopped" (done_from 2) [])
                   (declaration present 30))
  = Some (ExitJson true
            (MsgDeployed 100
               (Some "local:vztmpl/ubuntu-14.04-x86_64.tar.gz")))
  /\ filter mutating
       (calls (invoke 30 workstation (lab [] "stopped" (done_from 2) [])
                      (declaration present 30)))
     = [CreatePost (Some "uk-mc02") (kwargs_of (declaration present 30))]
  /\ now (snd (invoke 30 workstation (lab [] "stopped" (done_from 2) [])
                      (declaration present 30))) = 3 - 1.
Proof.
  apply (present_succeeds 30 workstation (lab [] "stopped" (done_from 2) [])
           (declaration present 30) 3).
  - reflexivity.
  - reflexivity.
  - left. reflexivity.
  - reflexivity.
  - reflexivity.
  - simpl. lia.
  - simpl. lia.
  - split; [reflexivity|].
    intros j Hj. destruct j as [|[|[|j]]]; try reflexivity; lia.
Defined.

(** ** Budgets that run out *)

(** X21.  'started' on a container that is not running, with a budget
    [t >= 1] that the start task outlasts: the run fails with "Reached
    timeout while waiting for starting VM" and the first entry of the
    task log, after [t - 1] seconds of sleep; the start request stays the
    only mutating request, nothing is rolled back. *)
Theorem started_times_out (fuel : nat) (h : host) (c : cluster)
        (p : params) (n : string) :
  connects h c p = true ->
  state p = started ->
  observed_node c (vmid p) = Some n ->
  (current c n (vmid p) =? "running") = false ->
  (1 <= timeout p)%Z ->
  Z.to_nat (timeout p) <= fuel ->
  unfinished_through c (start_task c n (vmid p)) boot
                     (Z.to_nat (timeout p)) ->
  reported (invoke fuel h c p)
  = Some (FailJson
            (MsgReachedTimeout "starting"
               (firstn 1 (task_log c (start_task c n (vmid p))))))
  /\ filter mutating (calls (invoke fuel h c p)) = [StartPost n (vmid p)]
  /\ now (snd (invoke fuel h c p)) = Z.to_nat (timeout p) - 1.
Proof.
  intros Hc Hs Ho Hst Ht Hfuel Hnot.
  rewrite (main_connected fuel h c p Hc), Hs.
  destruct (observed_node_some _ _ _ Ho) as (v & rest & Hl & Hn). subst n.
  assert (Hs' : S (Z.to_nat (timeout p) - 1) = Z.to_nat (timeout p)) by lia.
  rewrite <- Hs' in Hnot.
  destruct (start_instance_expires c v rest (vmid p) (timeout p) fuel
              {| now := 0;
                 trace := [(0, AccessTicket (api_user p)); (0, ResourcesGet);
                           (0, CurrentGet (vm_node v) (vmid p))] |}
              Ht Hfuel (unfinished_at_second c _ 0 _ Hnot))
    as (evs & E & Q).
  simpl in E.
  unfold state_started. run_block. rewrite Hl. simpl. rewrite Hst.
  rewrite E. unfold calls. simpl.
  split; [reflexivity|]. split; [|reflexivity].
  rewrite map_app, filter_app.
  rewrite (session_queries_read_only _ _ _ _ _ Q). reflexivity.
Qed.

Lemma started_times_out_witness :
  reported (invoke 3 workstation (lab [vm100] "stopped" never two_lines)
                   (declaration started 3))
  = Some (FailJson (MsgReachedTimeout "starting" ["starting task"]))
  /\ filter mutating
       (calls (invoke 3 workstation (lab [vm100] "stopped" never two_lines)
                      (declaration started 3)))
     = [StartPost "uk-mc02" 100]
  /\ now (snd (invoke 3 workstation
                      (lab [vm100] "stopped" never two_lines)
                      (declaration started 3))) = 3 - 1.
Proof.
  apply (started_times_out 3 workstation
           (lab [vm100] "stopped" never two_lines) (declaration started 3)
           "uk-mc02").
  - reflexivity.
  - reflexivity.
  - reflexivity.
  - reflexivity.
  - simpl. lia.
  - simpl. lia.
  - intros j Hj. reflexivity.
Defined.

(** X22.  'stopped' on a container whose status is neither 'mounted' nor
    'stopped', with a budget [t >= 1] that the shutdown task outlasts:
    the timeout statement of [stop_instance] raises [NameError] for
    [proxmox_node], which [main] reports as "stopping of VM ... failed
    with exception: ..."; the task log is never requested, and the
    shutdown request stays the only mutating request. *)
Theorem stopped_times_out (fuel : nat) (h : host) (c : cluster)
        (p : params) (n : string) :
  connects h c p = true ->
  state p = stopped ->
  observed_node c (vmid p) = Some n ->
  (current c n (vmid p) =? "mounted") = false ->
  (current c n (vmid p) =? "stopped") = false ->
  (1 <= timeout p)%Z ->
  Z.to_nat (timeout p) <= fuel ->
  unfinished_through c (shutdown_task c n (vmid p) (force p)) boot
                     (Z.to_nat (timeout p)) ->
  reported (invoke fuel h c p)
  = Some (FailJson (MsgFailedWithException "stopping" (vmid p)
                      (NameError "proxmox_node")))
  /\ filter mutating (calls (invoke fuel h c p))
     = [ShutdownPost n (vmid p) (force p)]
  /\ (forall nd task, ~ In (TaskLogGet nd task) (calls (invoke fuel h c p)))
  /\ now (snd (invoke fuel h c p)) = Z.to_nat (timeout p) - 1.
Proof.
  intros Hc Hs Ho Hm Hst Ht Hfuel Hnot.
  rewrite (main_connected fuel h c p Hc), Hs.
  destruct (observed_node_some _ _ _ Ho) as (v & rest & Hl & Hn). subst n.
  assert (Hs' : S (Z.to_nat (timeout p) - 1) = Z.to_nat (timeout p)) by lia.
  rewrite <- Hs' in Hnot.
  destruct (stop_instance_expires c v rest (vmid p) (timeout p) (force p)
              fuel
              {| now := 0;
                 trace := [(0, AccessTicket (api_user p)); (0, ResourcesGet);
                           (0, CurrentGet (vm_node v) (vmid p));
                           (0, CurrentGet (vm_node v) (vmid p))] |}
              Ht Hfuel (unfinished_at_second c _ 0 _ Hnot))
    as (evs & E & Q).
  simpl in E.
  unfold state_stopped. run_block. rewrite Hl. simpl. rewrite Hm. simpl.
  rewrite Hst. rewrite E. unfold calls. simpl.
  split; [reflexivity|]. split; [|split; [|reflexivity]].
  - rewrite (session_queries_read_only _ _ _ _ _ Q). reflexivity.
  - intros nd task [H|[H|[H|[H|[H|H]]]]]; try discriminate.
    apply in_map_iff in H. destruct H as (e & He & Hin).
    destruct Q as [_ Q]. rewrite Forall_forall in Q.
    destruct (Q e Hin) as [Hq _]. rewrite Hq in He. discriminate.
Qed.

Lemma stopped_times_out_witness :
  reported (invoke 3 workstation (lab [vm100] "running" never two_lines)
                   (declaration stopped 3))
  = Some (FailJson (MsgFailedWithException "stopping" 100
                      (NameError "proxmox_node")))
  /\ filter mutating
       (calls (invoke 3 workstation (lab [vm100] "running" never two_lines)
                      (declaration stopped 3)))
     = [ShutdownPost "uk-mc02" 100 false]
  /\ (forall nd task,
        ~ In (TaskLogGet nd task)
             (calls (invoke 3 workstation
                            (lab [vm100] "running" never two_lines)
                            (declaration stopped 3))))
  /\ now (snd (invoke 3 workstation
                      (lab [vm100] "running" never two_lines)
                      (declaration stopped 3))) = 3 - 1.
Proof.
  apply (stopped_times_out 3 workstation
           (lab [vm100] "running" never two_lines) (declaration stopped 3)
           "uk-mc02").
  - reflexivity.
  - reflexivity.
  - reflexivity.
  - reflexivity.
  - reflexivity.
  - simpl. lia.
  - simpl. lia.
  - intros j Hj. reflexivity.
Defined.

(** ** What a state never sends *)

#[local] Hint Resolve sends_only_ret sends_only_exit_json
  sends_only_fail_json sends_only_raise sends_only_spin sends_only_clock
  sends_only_sleep : sends.

Ltac sends_all :=
  repeat first
    [ apply poll_sends_only; [reflexivity | | ]
    | sends_step ].

Lemma session_sends_only (P : call -> bool) (h : host) (c : cluster)
      (p : params) (block : M unit) :
  (forall u, P (AccessTicket u) = true) ->
  sends_only P block ->
  sends_only P
    ((if negb (HAS_PROXMOXER h) then fail_json MsgProxmoxerRequired
      else ret tt);;
     api_password <-
       (if negb (truthy (api_password p)) then
          match PROXMOX_PASSWORD h with
          | Some pw => ret (Some pw)
          | None => fail_json MsgPasswordRequired
          end
        else ret (api_password p));;
     try_except (ProxmoxAPI c (api_user p) api_password)
                (fun e => fail_json (MsgAuthorizationFailed e));;
     block).
Proof.
  intros HP Hb. unfold ProxmoxAPI.
  apply sends_only_bind; [sends|]. intros ?.
  apply sends_only_bind; [sends|]. intros pw.
  apply sends_only_bind; [|intros ?; exact Hb].
  apply sends_only_try_except; [|intros; sends].
  apply sends_only_bind; [apply sends_only_send; apply HP|]. intros ?.
  sends.
Qed.

(** X23.  Whatever the cluster answers and however the run ends, the only
    mutating requests an invocation sends are those of the block of its
    state: a create for 'present', a start for 'started', unmount and
    shutdown for 'stopped', shutdown and start for 'restarted', a delete
    for 'absent'.  In particular only 'absent' can delete and only
    'present' can create. *)
Theorem only_requests_of_the_state (fuel : nat) (h : host) (c : cluster)
        (p : params) (q : call) :
  In q (calls (invoke fuel h c p)) ->
  allowed (state p) q = true.
Proof.
  assert (H : sends_only (allowed (state p)) (main fuel h c p)).
  { unfold main.
    apply session_sends_only; [destruct (state p); reflexivity|].
    destruct (state p);
      unfold state_present, state_started, state_stopped, state_restarted,
        state_absent, create_instance, start_instance, stop_instance,
        umount_instance, get_instance, node_check, content_check,
        current_status, vm0_node, reached_timeout, reached_timeout_unbound,
        task_log_get;
      sends_all. }
  destruct (H boot) as (evs & E & F).
  unfold invoke, calls. rewrite E. simpl. intros Hin.
  apply in_map_iff in Hin. destruct Hin as (e & He & Hin).
  rewrite forallb_forall in F. rewrite <- He. exact (F e Hin).
Qed.

Lemma only_requests_of_the_state_witness :
  allowed started (StartPost "uk-mc02" 100) = true.
Proof.
  apply (only_requests_of_the_state 30 workstation
           (lab [vm100] "stopped" (done_from 2) []) (declaration started 30)
           (StartPost "uk-mc02" 100)).
  simpl. right. right. right. left. reflexivity.
Defined.

(** X24.  'stopped' with [force] and timeout = 0 on a container whose
    status is 'mounted': the unmount request is sent, its loop is not
    entered and [umount_instance] returns [False]; the block goes on,
    sends a forced shutdown request as well, and the run ends without
    reporting. *)
Theorem stopped_mounted_without_budget (fuel : nat) (h : host)
        (c : cluster) (p : params) (n : string) :
  connects h c p = true ->
  state p = stopped ->
  observed_node c (vmid p) = Some n ->
  current c n (vmid p) = "mounted" ->
  force p = true ->
  timeout p = 0%Z ->
  invoke fuel h c p
  = (Ret tt,
     {| now := 0;
        trace := [(0, AccessTicket (api_user p)); (0, ResourcesGet);
                  (0, CurrentGet n (vmid p)); (0, UmountPost n (vmid p));
                  (0, CurrentGet n (vmid p));
                  (0, ShutdownPost n (vmid p) true)] |}).
Proof.
  intros Hc Hs Ho Hm Hf Ht. rewrite (main_connected fuel h c p Hc), Hs.
  destruct (observed_node_some _ _ _ Ho) as (v & rest & Hl & Hn). subst n.
  unfold state_stopped, umount_instance, stop_instance. rewrite Ht, Hf.
  run_block. rewrite Hl. simpl. rewrite Hm. simpl.
  rewrite !while_timeout_zero. reflexivity.
Qed.

Lemma stopped_mounted_without_budget_witness :
  invoke 5 workstation (lab [vm100] "mounted" never two_lines)
         (forced stopped 0)
  = (Ret tt,
     {| now := 0;
        trace := [(0, AccessTicket "root@pam"); (0, ResourcesGet);
                  (0, CurrentGet "uk-mc02" 100);
                  (0, UmountPost "uk-mc02" 100);
                  (0, CurrentGet "uk-mc02" 100);
                  (0, ShutdownPost "uk-mc02" 100 true)] |}).
Proof.
  apply (stopped_mounted_without_budget 5 workstation
           (lab [vm100] "mounted" never two_lines) (forced stopped 0)
           "uk-mc02"); reflexivity.
Defined.

End ProxmoxStates.

(* ====================================================================== *)
(** * More on proxmox: how long an invocation lasts *)
(* ====================================================================== *)

Module ProxmoxTime.
Import Proxmox Fixtures ProxmoxFacts ProxmoxPollers ProxmoxStates.
Local Open Scope list_scope.

(** ** Computations that end *)

Lemma ends_weaken {A : Type} (n n' : nat) (m : M A) :
  n <= n' -> ends_within n m -> ends_within n' m.
Proof. intros Hn H w. destruct (H w) as [H1 H2]. split; [exact H1 | lia]. Qed.

Lemma ends_instant {A : Type} (m : M A) :
  (forall w, fst (m w) <> Spin /\ now (snd (m w)) = now w) ->
  ends_within 0 m.
Proof. intros H w. destruct (H w) as [H1 H2]. split; [exact H1 | lia]. Qed.

Lemma ends_ret {A : Type} (a : A) : ends_within 0 (ret a).
Proof. apply ends_instant. intros w. split; [discriminate | reflexivity]. Qed.

Lemma ends_exit_json {A : Type} (ch : bool) (msg : message) :
  ends_within 0 (exit_json (A := A) ch msg).
Proof. apply ends_instant. intros w. split; [discriminate | reflexivity]. Qed.

Lemma ends_fail_json {A : Type} (msg : message) :
  ends_within 0 (fail_json (A := A) msg).
Proof. apply ends_instant. intros w. split; [discriminate | reflexivity]. Qed.

Lemma ends_raise {A : Type} (e : exn) : ends_within 0 (raise (A := A) e).
Proof. apply ends_instant. intros w. split; [discriminate | reflexivity]. Qed.

Lemma ends_clock : ends_within 0 clock.
Proof. apply ends_instant. intros w. split; [discriminate | reflexivity]. Qed.

Lemma ends_send (q : call) : ends_within 0 (send q).
Proof. apply ends_instant. intros w. split; [discriminate | reflexivity]. Qed.

Lemma ends_bind {A B : Type} (n1 n2 : nat) (m : M A) (f : A -> M B) :
  ends_within n1 m -> (forall a, ends_within n2 (f a)) ->
  ends_within (n1 + n2) (bind m f).
Proof.
  intros Hm Hf w. unfold bind. destruct (Hm w) as [H1 H2].
  destruct (m w) as [[a|o|e|] w1]; simpl in *.
  - destruct (Hf a w1) as [H3 H4]. split; [exact H3 | lia].
  - split; [discriminate | lia].
  - split; [discriminate | lia].
  - contradiction.
Qed.

Lemma ends_bind_instant {A B : Type} (n : nat) (m : M A) (f : A -> M B) :
  ends_within 0 m -> (forall a, ends_within n (f a)) ->
  ends_within n (bind m f).
Proof. intros Hm Hf. exact (ends_bind 0 n m f Hm Hf). Qed.

Lemma ends_then_instant {A B : Type} (n : nat) (m : M A) (f : A -> M B) :
  ends_within n m -> (forall a, ends_within 0 (f a)) ->
  ends_within n (bind m f).
Proof.
  intros Hm Hf. apply (ends_weaken (n + 0) n); [lia|].
  exact (ends_bind n 0 m f Hm Hf).
Qed.

Lemma ends_try_except {A : Type} (n : nat) (m : M A) (h : exn -> M A) :
  ends_within n m -> (forall e, ends_within 0 (h e)) ->
  ends_within n (try_except m h).
Proof.
  intros Hm Hh w. unfold try_except. destruct (Hm w) as [H1 H2].
  destruct (m w) as [[a|o|e|] w1]; simpl in *;
    try (split; [discriminate | lia]).
  - destruct (Hh e w1) as [H3 H4]. split; [exact H3 | lia].
  - contradiction.
Qed.

Create HintDb ends.

#[local] Hint Resolve ends_ret ends_exit_json ends_fail_json ends_raise
  ends_clock ends_send : ends.

(** Straight-line code that does not sleep. *)
Ltac instant_step :=
  match goal with
  | |- ends_within 0 (bind _ _) => apply ends_bind_instant; [|intros]
  | |- ends_within 0 (try_except _ _) => apply ends_try_except; [|intros]
  | |- ends_within _ (if ?b then _ else _) => destruct b
  | |- ends_within _ (match ?x with _ => _ end) => destruct x
  | |- ends_within 0 _ => solve [auto with ends]
  end.

Ltac instant := repeat instant_step.

(** ** The countdown loop ends *)

Section LoopEnds.
Context {A : Type}.
Variables (c : cluster) (node : pystr) (task : taskid).
Variables (fin : M (loop_ctl A)) (expired : M unit).
Hypothesis fin_ends : ends_within 0 fin.
Hypothesis fin_leaves : forall w t', fst (fin w) <> Ret (Again t').
Hypothesis expired_ends : ends_within 0 expired.
Hypothesis expired_aborts : forall w, fst (expired w) <> Ret tt.

(** With a budget [t >= 0] and fuel [t], whatever the task answers, the
    loop is left after at most [t] passes, having slept at most [t - 1]
    seconds. *)
Lemma while_timeout_ends (n : nat) :
  forall (fuel : nat) (t : Z) (w : world),
    (0 <= t)%Z -> Z.to_nat t = n -> n <= fuel ->
    exists r w',
      while_timeout fuel t (poll c node task fin expired) w = (r, w')
      /\ r <> Spin
      /\ now w <= now w' <= now w + (n - 1).
Proof.
  induction n as [|n IH]; intros fuel t w Ht Hn Hfuel.
  - replace t with 0%Z by lia. rewrite while_timeout_zero.
    eexists; eexists. split; [reflexivity|].
    split; [discriminate | simpl; lia].
  - destruct fuel as [|fuel]; [lia|].
    rewrite while_timeout_step by lia. unfold bind at 1.
    destruct (finished (task_status c task (now w))) eqn:Hf.
    + rewrite (poll_finished c node task fin expired t w Hf).
      match goal with
      | |- context [fin ?w1] =>
          destruct (fin_ends w1) as [F1 F2];
          pose proof (fin_leaves w1) as F3;
          destruct (fin w1) as [[[a|t']|o|e|] w2]
      end; simpl in *.
      * eexists; eexists. split; [reflexivity|].
        split; [discriminate | lia].
      * exfalso. exact (F3 t' eq_refl).
      * eexists; eexists. split; [reflexivity|].
        split; [discriminate | lia].
      * eexists; eexists. split; [reflexivity|].
        split; [discriminate | lia].
      * contradiction.
    + destruct (poll_unfinished c node task fin expired t w Hf)
        as (evs & _ & _ & E).
      rewrite E. clear E.
      destruct (Z.eqb_spec (t - 1) 0) as [Hz|Hz].
      * unfold bind at 1.
        match goal with
        | |- context [expired ?w1] =>
            destruct (expired_ends w1) as [F1 F2];
            pose proof (expired_aborts w1) as F3;
            destruct (expired w1) as [[[]|o|e|] w2]
        end; simpl in *.
        -- exfalso. exact (F3 eq_refl).
        -- eexists; eexists. split; [reflexivity|].
           split; [discriminate | lia].
        -- eexists; eexists. split; [reflexivity|].
           split; [discriminate | lia].
        -- contradiction.
      * unfold bind at 1 2, ret at 1 2, sleep at 1. simpl.
        destruct (IH fuel (t - 1)%Z
                     {| now := now w + 1; trace := trace w ++ evs |})
          as (r & w' & E & H1 & H2); [lia | lia | lia |].
        rewrite E. simpl in H2.
        exists r, w'. split; [reflexivity|]. split; [exact H1 | lia].
Qed.

Lemma poll_loop_ends (fuel : nat) (t : Z) :
  (0 <= t)%Z -> Z.to_nat t <= fuel ->
  ends_within (Z.to_nat t - 1)
              (while_timeout fuel t (poll c node task fin expired)).
Proof.
  intros Ht Hfuel w.
  destruct (while_timeout_ends (Z.to_nat t) fuel t w Ht eq_refl Hfuel)
    as (r & w' & E & H1 & H2).
  rewrite E. simpl. split; assumption.
Qed.

End LoopEnds.

(** ** The pollers and the blocks end *)

Section Ends.
Variables (fuel : nat) (c : cluster) (t : Z).
Hypothesis budget : (0 <= t)%Z.
Hypothesis enough : Z.to_nat t <= fuel.

Lemma reporting_loop_ends (node : pystr) (task : taskid) (what : string) :
  ends_within (Z.to_nat t - 1)
    (while_timeout fuel t
       (poll c node task (ret (Return true))
             (reached_timeout c what node task))).
Proof.
  apply poll_loop_ends; try assumption.
  - apply ends_ret.
  - intros w t'. discriminate.
  - unfold reached_timeout, task_log_get. instant.
  - intros w. discriminate.
Qed.

Lemma raising_loop_ends {A : Type} (node : pystr) (task : taskid)
      (fin : M (loop_ctl A)) :
  ends_within 0 fin -> (forall w t', fst (fin w) <> Ret (Again t')) ->
  ends_within (Z.to_nat t - 1)
    (while_timeout fuel t (poll c node task fin reached_timeout_unbound)).
Proof.
  intros H1 H2. apply poll_loop_ends; try assumption.
  - apply ends_raise.
  - intros w. discriminate.
Qed.

Lemma create_instance_ends (p : params) :
  ends_within (Z.to_nat t - 1)
    (create_instance fuel c (vmid p) (node p) (disk p) (storage p) (cpus p)
       (memory p) (swap p) t (password p) (hostname p) (ostemplate p)
       (netif p) (ip_address p) (Z.b2z (onboot p)) (cpuunits p)
       (nameserver p) (searchdomain p) (Z.b2z (force p))).
Proof.
  unfold create_instance.
  apply ends_bind_instant; [instant|]. intros ?.
  apply reporting_loop_ends.
Qed.

Lemma start_instance_ends (vm : list vm) (vmid : Z) :
  ends_within (Z.to_nat t - 1) (start_instance fuel c vm vmid t).
Proof.
  unfold start_instance, vm0_node.
  apply ends_bind_instant; [instant|]. intros n.
  apply ends_bind_instant; [instant|]. intros ?.
  apply ends_then_instant; [apply reporting_loop_ends|].
  intros r. instant.
Qed.

Lemma stop_instance_ends (vm : list vm) (vmid : Z) (f : bool) :
  ends_within (Z.to_nat t - 1) (stop_instance fuel c vm vmid t f).
Proof.
  unfold stop_instance, vm0_node.
  apply ends_bind_instant; [instant|]. intros n.
  apply ends_bind_instant; [instant|]. intros ?.
  apply ends_then_instant.
  - apply raising_loop_ends; [apply ends_ret | intros w t'; discriminate].
  - intros r. instant.
Qed.

Lemma umount_instance_ends (vm : list vm) (vmid : Z) :
  ends_within (Z.to_nat t - 1) (umount_instance fuel c vm vmid t).
Proof.
  unfold umount_instance, vm0_node.
  apply ends_bind_instant; [instant|]. intros n.
  apply ends_bind_instant; [instant|]. intros ?.
  apply ends_then_instant.
  - apply raising_loop_ends; [apply ends_ret | intros w t'; discriminate].
  - intros r. instant.
Qed.

Variable p : params.
Hypothesis budget_of_p : t = timeout p.

Ltac lookup :=
  unfold get_instance, node_check, content_check, current_status, vm0_node;
  instant.

Lemma state_present_ends :
  ends_within (Z.to_nat t - 1) (state_present fuel c p).
Proof.
  unfold state_present. rewrite <- budget_of_p.
  apply ends_try_except; [|intros; instant].
  apply ends_bind_instant; [lookup|]. intros vm.
  apply ends_bind_instant; [lookup|]. intros ?.
  apply ends_then_instant; [apply create_instance_ends | intros; instant].
Qed.

Lemma state_started_ends :
  ends_within (Z.to_nat t - 1) (state_started fuel c p).
Proof.
  unfold state_started. rewrite <- budget_of_p.
  apply ends_try_except; [|intros; instant].
  apply ends_bind_instant; [lookup|]. intros vm.
  apply ends_bind_instant; [instant|]. intros ?.
  apply ends_bind_instant; [lookup|]. intros st.
  apply ends_bind_instant; [instant|]. intros ?.
  apply ends_then_instant; [apply start_instance_ends | intros; instant].
Qed.

Lemma state_absent_ends :
  ends_within (Z.to_nat t - 1) (state_absent fuel c p).
Proof.
  unfold state_absent. rewrite <- budget_of_p.
  apply ends_try_except; [|intros; instant].
  apply ends_bind_instant; [lookup|]. intros vm.
  apply ends_bind_instant; [instant|]. intros ?.
  apply ends_bind_instant; [lookup|]. intros st.
  apply ends_bind_instant; [instant|]. intros ?.
  apply ends_bind_instant; [lookup|]. intros st'.
  apply ends_bind_instant; [instant|]. intros ?.
  apply ends_bind_instant; [lookup|]. intros n.
  apply ends_bind_instant; [instant|]. intros ?.
  apply ends_then_instant; [|intros; instant].
  apply raising_loop_ends; [apply ends_exit_json | intros w t'; discriminate].
Qed.

Lemma state_stopped_ends :
  ends_within ((Z.to_nat t - 1) + (Z.to_nat t - 1)) (state_stopped fuel c p).
Proof.
  unfold state_stopped. rewrite <- budget_of_p.
  apply ends_try_except; [|intros; instant].
  apply ends_bind_instant; [lookup|]. intros vm.
  apply ends_bind_instant; [instant|]. intros ?.
  apply ends_bind_instant; [lookup|]. intros st.
  apply ends_bind.
  - destruct (st =? "mounted"); [destruct (force p)|].
    + apply ends_then_instant; [apply umount_instance_ends|].
      intros; instant.
    + apply (ends_weaken 0); [lia | instant].
    + apply (ends_weaken 0); [lia | instant].
  - intros ?.
    apply ends_bind_instant; [lookup|]. intros st'.
    apply ends_bind_instant; [instant|]. intros ?.
    apply ends_then_instant; [apply stop_instance_ends | intros; instant].
Qed.

Lemma state_restarted_ends :
  ends_within ((Z.to_nat t - 1) + (Z.to_nat t - 1))
              (state_restarted fuel c p).
Proof.
  unfold state_restarted. rewrite <- budget_of_p.
  apply ends_try_except; [|intros; instant].
  apply ends_bind_instant; [lookup|]. intros vm.
  apply ends_bind_instant; [instant|]. intros ?.
  apply ends_bind_instant; [lookup|]. intros st.
  apply ends_bind_instant.
  { destruct (st =? "stopped"); [instant|].
    apply ends_bind_instant; [lookup|]. intros; instant. }
  intros down.
  apply ends_bind_instant; [instant|]. intros ?.
  apply ends_bind; [apply stop_instance_ends|]. intros ok.
  apply ends_then_instant; [|intros; instant].
  destruct ok; [apply start_instance_ends|].
  apply (ends_weaken 0); [lia | instant].
Qed.

End Ends.

(** X25.  With a timeout that is not negative, an invocation always comes
    to an end, whatever the cluster and its tasks answer: [timeout]
    passes of each loop are enough, and the process has then slept at
    most [timeout - 1] seconds for 'present', 'started' and 'absent', and
    at most twice that for 'stopped' and 'restarted'. *)
Theorem invocation_ends (fuel : nat) (h : host) (c : cluster) (p : params) :
  (0 <= timeout p)%Z ->
  Z.to_nat (timeout p) <= fuel ->
  fst (invoke fuel h c p) <> Spin
  /\ now (snd (invoke fuel h c p)) <= 2 * (Z.to_nat (timeout p) - 1)
  /\ (state p = present \/ state p = started \/ state p = absent ->
      now (snd (invoke fuel h c p)) <= Z.to_nat (timeout p) - 1).
Proof.
  intros Ht Hfuel.
  assert (G : forall n,
             ends_within n
               match state p with
               | present => state_present fuel c p
               | started => state_started fuel c p
               | stopped => state_stopped fuel c p
               | restarted => state_restarted fuel c p
               | absent => state_absent fuel c p
               end ->
             ends_within n (main fuel h c p)).
  { intros n Hb. unfold main, ProxmoxAPI.
    apply ends_bind_instant; [instant|]. intros ?.
    apply ends_bind_instant; [instant|]. intros pw.
    apply ends_bind_instant; [|intros ?; exact Hb].
    apply ends_try_except; [|intros; instant].
    apply ends_bind_instant; [instant|]. intros; instant. }
  pose proof (state_present_ends fuel c (timeout p) Ht Hfuel p eq_refl) as H1.
  pose proof (state_started_ends fuel c (timeout p) Ht Hfuel p eq_refl) as H2.
  pose proof (state_absent_ends fuel c (timeout p) Ht Hfuel p eq_refl) as H3.
  pose proof (state_stopped_ends fuel c (timeout p) Ht Hfuel p eq_refl) as H4.
  pose proof (state_restarted_ends fuel c (timeout p) Ht Hfuel p eq_refl)
    as H5.
  unfold invoke. split; [|split].
  - refine (proj1 (G (2 * (Z.to_nat (timeout p) - 1)) _ boot)).
    destruct (state p);
      (eapply ends_weaken; [|eassumption]); lia.
  - refine (proj2 (proj2 (G (2 * (Z.to_nat (timeout p) - 1)) _ boot))).
    destruct (state p);
      (eapply ends_weaken; [|eassumption]); lia.
  - intros Hs.
    refine (proj2 (proj2 (G (Z.to_nat (timeout p) - 1) _ boot))).
    destruct Hs as [Hs|[Hs|Hs]]; rewrite Hs; assumption.
Qed.

Lemma invocation_ends_witness :
  fst (invoke 3 workstation (lab [vm100] "stopped" never two_lines)
              (declaration started 3)) <> Spin
  /\ now (snd (invoke 3 workstation (lab [vm100] "stopped" never two_lines)
                      (declaration started 3))) <= 2 * (3 - 1)
  /\ (started = present \/ started = started \/ started = absent ->
      now (snd (invoke 3 workstation
                       (lab [vm100] "stopped" never two_lines)
                       (declaration started 3))) <= 3 - 1).
Proof.
  apply (invocation_ends 3 workstation
           (lab [vm100] "stopped" never two_lines)
           (declaration started 3)).
  - simpl. lia.
  - simpl. lia.
Defined.

(** ** A negative timeout *)

Section Unbounded.
Context {A : Type}.
Variables (c : cluster) (node : pystr) (task : taskid).
Variables (fin : M (loop_ctl A)) (expired : M unit).

(** A negative counter never reaches 0: while the task is not finished
    the loop goes on, whatever the fuel. *)
Lemma wait_forever (fuel : nat) :
  forall (t : Z) (w : world),
    (t < 0)%Z ->
    (forall s, now w <= s -> finished (task_status c task s) = false) ->
    fst (while_timeout fuel t (poll c node task fin expired) w) = Spin.
Proof.
  induction fuel as [|fuel IH]; intros t w Ht Hnot.
  - simpl. destruct (Z.eqb_spec t 0); [lia | reflexivity].
  - rewrite while_timeout_step by lia.
    destruct (poll_unfinished c node task fin expired t w
                (Hnot (now w) (le_n _))) as (evs & _ & _ & E).
    unfold bind at 1. rewrite E.
    destruct (Z.eqb_spec (t - 1) 0) as [Hz|Hz]; [lia|].
    unfold bind at 1 2, ret at 1 2, sleep at 1. simpl.
    apply IH; [lia|]. simpl. intros s Hs. apply Hnot. lia.
Qed.

(** With a negative counter the loop waits for the task as long as it
    takes. *)
Lemma wait_unbounded (a : A) (n : nat) :
  forall (fuel : nat) (t : Z) (w : world),
    n < fuel -> (t < 0)%Z ->
    (forall j, j < n -> finished (task_status c task (now w + j)) = false) ->
    finished (task_status c task (now w + n)) = true ->
    exists evs,
      while_timeout fuel t (poll c node task (ret (Return a)) expired) w
      = (Ret (Some a), {| now := now w + n; trace := trace w ++ evs |}).
Proof.
  induction n as [|n IH]; intros fuel t w Hfuel Ht Hbefore Hdone.
  - destruct fuel as [|fuel]; [lia|].
    rewrite while_timeout_step by lia.
    rewrite Nat.add_0_r in *. unfold bind at 1.
    rewrite poll_finished by exact Hdone. unfold ret at 1 2.
    eexists. reflexivity.
  - destruct fuel as [|fuel]; [lia|].
    rewrite while_timeout_step by lia.
    assert (H0 : finished (task_status c task (now w)) = false).
    { rewrite <- (Nat.add_0_r (now w)). apply Hbefore. lia. }
    destruct (poll_unfinished c node task (ret (Return a)) expired t w H0)
      as (e1 & _ & _ & E).
    unfold bind at 1. rewrite E.
    destruct (Z.eqb_spec (t - 1) 0) as [Hz|Hz]; [lia|].
    unfold bind at 1 2, ret at 1 2, sleep at 1. simpl.
    destruct (IH fuel (t - 1)%Z
                 {| now := now w + 1; trace := trace w ++ e1 |})
      as (e2 & E2); simpl.
    + lia.
    + lia.
    + intros j Hj. replace (now w + 1 + j) with (now w + S j) by lia.
      apply Hbefore. lia.
    + replace (now w + 1 + n) with (now w + S n) by lia. exact Hdone.
    + simpl in E2. rewrite E2. exists (e1 ++ e2). rewrite app_assoc.
      replace (now w + 1 + n) with (now w + S n) by lia. reflexivity.
Qed.

End Unbounded.

(** X26.  With a negative timeout the budget never runs out.  For
    'started' on a container that is not running: if the start task is
    never finished the invocation never ends (no amount of fuel gives a
    result, and nothing is reported); if the task is first finished in
    tick [k], however large, the invocation reports changed=true after
    [k - 1] seconds. *)
Theorem negative_timeout_waits_forever (h : host) (c : cluster)
        (p : params) (n : string) :
  connects h c p = true ->
  state p = started ->
  observed_node c (vmid p) = Some n ->
  (current c n (vmid p) =? "running") = false ->
  (timeout p < 0)%Z ->
  (never_finished c (start_task c n (vmid p)) 0 ->
   forall fuel,
     fst (invoke fuel h c p) = Spin
     /\ reported (invoke fuel h c p) = None)
  /\ (forall k fuel,
        1 <= k <= fuel ->
        first_finished_in c (start_task c n (vmid p)) boot k ->
        reported (invoke fuel h c p)
        = Some (ExitJson true (MsgStarted (vmid p)))
        /\ now (snd (invoke fuel h c p)) = k - 1).
Proof.
  intros Hc Hs Ho Hst Ht.
  destruct (observed_node_some _ _ _ Ho) as (v & rest & Hl & Hn). subst n.
  split.
  - intros Hnever fuel. rewrite (main_connected fuel h c p Hc), Hs.
    pose proof (wait_forever c (Some (vm_node v))
                  (start_task c (vm_node v) (vmid p))
                  (ret (Return true))
                  (reached_timeout c "starting" (Some (vm_node v))
                     (start_task c (vm_node v) (vmid p)))
                  fuel (timeout p)
                  {| now := 0;
                     trace := [(0, AccessTicket (api_user p));
                               (0, ResourcesGet);
                               (0, CurrentGet (vm_node v) (vmid p));
                               (0, StartPost (vm_node v) (vmid p))] |}
                  Ht (fun s _ => Hnever s (Nat.le_0_l s))) as W.
    unfold state_started, start_instance. run_block. rewrite Hl. simpl.
    rewrite Hst. unfold reported.
    destruct (while_timeout _ _ _ _) as [r w']. simpl in W. subst r.
    simpl. split; reflexivity.
  - intros k fuel Hk Hfin. rewrite (main_connected fuel h c p Hc), Hs.
    destruct (first_finished_at_second c _ 0 k (proj1 Hk) Hfin) as [Hb Hd].
    destruct (wait_unbounded c (Some (vm_node v))
                (start_task c (vm_node v) (vmid p))
                (reached_timeout c "starting" (Some (vm_node v))
                   (start_task c (vm_node v) (vmid p)))
                true (k - 1) fuel (timeout p)
                {| now := 0;
                   trace := [(0, AccessTicket (api_user p));
                             (0, ResourcesGet);
                             (0, CurrentGet (vm_node v) (vmid p));
                             (0, StartPost (vm_node v) (vmid p))] |})
      as (evs & E); [lia | exact Ht | exact Hb | exact Hd |].
    simpl in E.
    assert (E' : start_instance fuel c (v :: rest) (vmid p) (timeout p)
                   {| now := 0;
                      trace := [(0, AccessTicket (api_user p));
                                (0, ResourcesGet);
                                (0, CurrentGet (vm_node v) (vmid p))] |}
                 = (Ret true,
                    {| now := k - 1;
                       trace := (0, AccessTicket (api_user p))
                                :: (0, ResourcesGet)
                                :: (0, CurrentGet (vm_node v) (vmid p))
                                :: (0, StartPost (vm_node v) (vmid p))
                                :: evs |})).
    { unfold start_instance, vm0_node.
      unfold bind at 1 2. unfold ret at 1, send at 1. simpl.
      unfold bind at 1. rewrite E. reflexivity. }
    unfold state_started. run_block. rewrite Hl. simpl.
    rewrite Hst. rewrite E'. simpl. split; reflexivity.
Qed.

Lemma negative_timeout_waits_forever_witness :
  (fst (invoke 7 workstation (lab [vm100] "stopped" never [])
               (declaration started (-1))) = Spin
   /\ reported (invoke 7 workstation (lab [vm100] "stopped" never [])
                       (declaration started (-1))) = None)
  /\ (reported (invoke 7 workstation
                       (lab [vm100] "stopped" (done_from 2) [])
                       (declaration started (-1)))
      = Some (ExitJson true (MsgStarted 100))
      /\ now (snd (invoke 7 workstation
                          (lab [vm100] "stopped" (done_from 2) [])
                          (declaration started (-1)))) = 3 - 1).
Proof.
  split.
  - destruct (negative_timeout_waits_forever workstation
                (lab [vm100] "stopped" never []) (declaration started (-1))
                "uk-mc02" eq_refl eq_refl eq_refl eq_refl eq_refl)
      as [H _].
    apply H. intros s _. reflexivity.
  - destruct (negative_timeout_waits_forever workstation
                (lab [vm100] "stopped" (done_from 2) [])
                (declaration started (-1))
                "uk-mc02" eq_refl eq_refl eq_refl eq_refl eq_refl)
      as [_ H].
    apply (H 3 7).
    + lia.
    + split; [reflexivity|].
      intros j Hj. destruct j as [|[|[|j]]]; try reflexivity; lia.
Defined.

End ProxmoxTime.

(* ====================================================================== *)
(** * More on datadog_monitor: the lookup and the registration *)
(* ====================================================================== *)

Module DatadogMore.
Import Datadog Fixtures.
Local Open Scope list_scope.

(** X1.  [installed] sends the listing GET and nothing else, and returns
    [True] exactly when that GET answered 200 and some monitor of the
    listing has exactly the declared name. *)
Theorem installed_exactly (a : api) (p : params) :
  snd (installed a p) = [GET (monitor_uri p)]
  /\ (fst (installed a p) = true
      <-> list_status a = 200%Z
          /\ exists m, In m (list_monitors a) /\ mon_name m = name p).
Proof.
  unfold installed.
  destruct (Z.eqb_spec (list_status a) 200) as [E|E]; simpl.
  - split; [reflexivity|].
    rewrite DatadogFacts.scan_is_existsb. simpl. rewrite existsb_exists.
    split.
    + intros (m & Hin & Hm). split; [exact E|].
      exists m. split; [exact Hin|]. now apply String.eqb_eq.
    + intros (_ & m & Hin & Hm). exists m. split; [exact Hin|].
      now apply String.eqb_eq.
  - split; [reflexivity|]. split; [discriminate|]. intros [H _]. contradiction.
Qed.

(** The body that [post_monitor] builds: the three mandatory members and
    then one member for each key of [OPTIONS] whose parameter is set. *)
Lemma body_members (p : params) (ks : list string) (body0 : dict)
      (k : string) (v : value) :
  In (k, v)
     (fold_left
        (fun body key =>
           match param p key with
           | Some v => body ++ [(key, v)]
           | None => body
           end) ks body0)
  <-> In (k, v) body0 \/ (In k ks /\ param p k = Some v).
Proof.
  revert body0. induction ks as [|key ks IH]; intros body0; simpl.
  - split; [auto | intros [H|[[] _]]; exact H].
  - rewrite IH. destruct (param p key) as [v'|] eqn:E.
    + rewrite in_app_iff. simpl. split.
      * intros [[H|[H|[]]]|[H1 H2]]; auto.
        injection H as -> ->. right. auto.
      * intros [H|[[->|H1] H2]]; auto.
        rewrite E in H2. injection H2 as ->. left. right. left. reflexivity.
    + split.
      * intros [H|[H1 H2]]; auto.
      * intros [H|[[->|H1] H2]]; auto. rewrite E in H2. discriminate.
Qed.

(** The requests of an invocation, by cases. *)
Lemma main_requests (a : api) (p : params) :
  snd (main a p) = []
  \/ snd (main a p) = [GET (monitor_uri p)]
  \/ snd (main a p)
     = [GET (monitor_uri p);
        POST (monitor_uri p)
          (fold_left
             (fun body key =>
                match param p key with
                | Some v => body ++ [(key, v)]
                | None => body
                end) OPTIONS
             [("type", VStr (type_ p)); ("query", VStr (query p));
              ("name", VStr (name p))])].
Proof.
  unfold main, post_monitor.
  destruct ((type_ p =? "metric alert") && _); [left; reflexivity|].
  destruct (installed_exactly a p) as [Hs _].
  destruct (installed a p) as [i sent]. simpl in Hs. subst sent.
  destruct i; [right; left; reflexivity|].
  right; right.
  destruct (post_status a _ =? 200)%Z; [destruct (post_id a _)|]; reflexivity.
Qed.

(** X2.  An invocation sends nothing, or the listing GET alone, or the
    listing GET followed by one registration POST to the same URI: never
    a second POST, and never a POST before the lookup. *)
Theorem at_most_one_registration (a : api) (p : params) :
  snd (main a p) = []
  \/ snd (main a p) = [GET (monitor_uri p)]
  \/ exists body,
       snd (main a p) = [GET (monitor_uri p); POST (monitor_uri p) body].
Proof.
  destruct (main_requests a p) as [H|[H|H]]; auto.
  right; right. eexists. exact H.
Qed.

(** X3.  The body of the registration POST holds the declared type, query
    and name, and, for each key of [OPTIONS], the declared value when it
    is not [None]; it holds nothing else. *)
Theorem registration_body (a : api) (p : params) (uri : string)
        (body : dict) (k : string) (v : value) :
  In (POST uri body) (snd (main a p)) ->
  (In (k, v) body
   <-> (k, v) = ("type", VStr (type_ p))
       \/ (k, v) = ("query", VStr (query p))
       \/ (k, v) = ("name", VStr (name p))
       \/ (In k OPTIONS /\ param p k = Some v)).
Proof.
  intros H.
  destruct (main_requests a p) as [E|[E|E]]; rewrite E in H; cbn [In] in H.
  - contradiction.
  - destruct H as [H|[]]. discriminate.
  - destruct H as [H|[H|[]]]; [discriminate|].
    match type of H with
    | POST _ ?b = _ => assert (Hb : body = b) by congruence
    end.
    rewrite Hb, body_members. cbn [In]. clear.
    split.
    + intros [[H|[H|[H|[]]]]|H]; auto.
    + intros [H|[H|[H|H]]]; auto.
Qed.

Lemma registration_body_witness :
  In ("thresholds", check_thresholds)
     [("type", VStr "service");
      ("query", VStr "check.over(tags).last(count).count_by_status()");
      ("name", VStr "Test check");
      ("notify_no_data", VBool false);
      ("thresholds", check_thresholds)]
  <-> ("thresholds", check_thresholds) = ("type", VStr "service")
      \/ ("thresholds", check_thresholds)
         = ("query", VStr "check.over(tags).last(count).count_by_status()")
      \/ ("thresholds", check_thresholds) = ("name", VStr "Test check")
      \/ (In "thresholds" OPTIONS
          /\ param service_check "thresholds" = Some check_thresholds).
Proof.
  apply (registration_body (datadog_fresh 200 (Some 1%Z)) service_check
           (monitor_uri service_check)).
  simpl. right. left. reflexivity.
Defined.

(** X4.  The declared [message] is never sent: no registration body has a
    member named "message", whatever the declaration. *)
Theorem message_is_not_forwarded (a : api) (p : params) (uri : string)
        (body : dict) (v : value) :
  In (POST uri body) (snd (main a p)) ->
  ~ In ("message", v) body.
Proof.
  intros H Hin.
  apply (registration_body a p uri body "message" v H) in Hin.
  destruct Hin as [E|[E|[E|[E _]]]]; try discriminate.
  simpl in E. repeat (destruct E as [E|E]; [discriminate|]). exact E.
Qed.

Lemma message_is_not_forwarded_witness :
  message service_check = Some (VStr "Arbitary alert message.")
  /\ ~ In ("message", VStr "Arbitary alert message.")
          [("type", VStr "service");
           ("query", VStr "check.over(tags).last(count).count_by_status()");
           ("name", VStr "Test check");
           ("notify_no_data", VBool false);
           ("thresholds", check_thresholds)].
Proof.
  split; [reflexivity|].
  apply (message_is_not_forwarded (datadog_fresh 200 (Some 1%Z))
           service_check (monitor_uri service_check)).
  simpl. right. left. reflexivity.
Defined.

(** X5.  When the declaration passes validation, the listing answers 200
    and no monitor has the declared name, the registration POST is sent
    once, after the lookup, and its answer decides the outcome: status
    200 with a non-null id gives changed=true, status 200 with a null id
    fails with the response, any other status fails with the transport
    information. *)
Theorem registration_outcome (a : api) (p : params) :
  (type_ p = "metric alert" -> thresholds p = None) ->
  list_status a = 200%Z ->
  listed a p = false ->
  exists body,
    snd (main a p) = [GET (monitor_uri p); POST (monitor_uri p) body]
    /\ fst (main a p)
       = if (post_status a body =? 200)%Z then
           match post_id a body with
           | Some _ => ExitJson true
           | None => FailJson MsgResponse
           end
         else FailJson (MsgInfo (post_status a body)).
Proof.
  intros Hv Hs Hl. unfold main, post_monitor.
  assert (G : (type_ p =? "metric alert")
              && match thresholds p with Some _ => true | None => false end
              = false).
  { destruct (String.eqb_spec (type_ p) "metric alert") as [E|E];
      [rewrite (Hv E)|]; reflexivity. }
  rewrite G, (DatadogFacts.installed_listing a p Hs), Hl.
  eexists. split.
  - destruct (post_status a _ =? 200)%Z; [destruct (post_id a _)|];
      reflexivity.
  - destruct (post_status a _ =? 200)%Z; [destruct (post_id a _)|];
      reflexivity.
Qed.

Lemma registration_outcome_witness :
  exists body,
    snd (main (datadog_fresh 200 None) service_check)
    = [GET (monitor_uri service_check);
       POST (monitor_uri service_check) body]
    /\ fst (main (datadog_fresh 200 None) service_check)
       = if (post_status (datadog_fresh 200 None) body =? 200)%Z then
           match post_id (datadog_fresh 200 None) body with
           | Some _ => ExitJson true
           | None => FailJson MsgResponse
           end
         else FailJson (MsgInfo (post_status (datadog_fresh 200 None) body)).
Proof.
  apply (registration_outcome (datadog_fresh 200 None) service_check).
  - simpl. discriminate.
  - reflexivity.
  - reflexivity.
Defined.

(** X6.  changed=true is reported only after a registration POST that
    was answered with status 200 and a non-null id. *)
Theorem changed_needs_accepted_post (a : api) (p : params) :
  fst (main a p) = ExitJson true ->
  exists body,
    In (POST (monitor_uri p) body) (snd (main a p))
    /\ post_status a body = 200%Z
    /\ post_id a body <> None.
Proof.
  unfold main, post_monitor.
  destruct ((type_ p =? "metric alert") && _); [discriminate|].
  destruct (installed a p) as [i sent]. destruct i; [discriminate|].
  match goal with
  | |- context [post_status a ?b] => set (body := b)
  end.
  destruct (post_status a body =? 200)%Z eqn:E; [|discriminate].
  destruct (post_id a body) as [id|] eqn:Eid; [|discriminate].
  intros _. exists body. simpl. split; [|split].
  - apply in_or_app. right. left. reflexivity.
  - apply Z.eqb_eq. exact E.
  - rewrite Eid. discriminate.
Qed.

Lemma changed_needs_accepted_post_witness :
  exists body,
    In (POST (monitor_uri service_check) body)
       (snd (main (datadog_fresh 200 (Some 2083%Z)) service_check))
    /\ post_status (datadog_fresh 200 (Some 2083%Z)) body = 200%Z
    /\ post_id (datadog_fresh 200 (Some 2083%Z)) body <> None.
Proof.
  apply (changed_needs_accepted_post (datadog_fresh 200 (Some 2083%Z))
           service_check).
  reflexivity.
Defined.

End DatadogMore.
